(** * PDF-Translator: a shallow embedding of [translator.py]

    The development follows the three methods of [PDFTranslator]
    ([extract_text], [translate_text], [create_pdf]), its constructor and
    the orchestration method [translate_pdf].

    - A Python [str] is a list of Unicode code points.
    - The collaborators (the OpenAI client, pypdf's reader, fpdf's
      document object, the process environment) are the fields of a
      class: every statement holds for all of their behaviours.
    - Effects are threaded through a small state-and-exception monad
      whose state survives a raised exception, as in Python. *)

From Stdlib Require Import List Arith NArith Lia Bool QArith.
From Stdlib Require String Ascii DecimalString.
Import String.StringSyntax.
Import ListNotations.

Set Implicit Arguments.
Set Warnings "-abstract-large-number".
Local Open Scope nat_scope.
Local Open Scope list_scope.
Delimit Scope string_scope with string.

(** ** Python strings *)

Module PyStr.

(** One Unicode code point. *)
Definition char := N.

Definition pystr := list char.

(** A string literal of the source, given in ASCII. *)
Definition lit (s : String.string) : pystr :=
  map Ascii.N_of_ascii (String.list_ascii_of_string s).
Arguments lit s%_string.

(** [str(n)] for a non-negative [int]. *)
Definition str_of_nat (n : nat) : pystr :=
  lit (DecimalString.NilZero.string_of_uint (Nat.to_uint n)).

Definition NL : char := 10%N.
Definition SP : char := 32%N.

(** [c.isspace()]: the code points CPython treats as whitespace in
    [str.split()] and [str.strip()]. *)
Definition isspace (c : char) : bool :=
  ((9 <=? c) && (c <=? 13) || (28 <=? c) && (c <=? 32)
   || (c =? 133) || (c =? 160) || (c =? 5760)
   || (8192 <=? c) && (c <=? 8202)
   || (c =? 8232) || (c =? 8233) || (c =? 8239) || (c =? 8287)
   || (c =? 12288))%N.

Fixpoint dropwhile (p : char -> bool) (s : pystr) : pystr :=
  match s with
  | [] => []
  | c :: s' => if p c then dropwhile p s' else s
  end.

(** [s.lstrip()], [s.rstrip()], [s.strip()]. *)
Definition lstrip (s : pystr) : pystr := dropwhile isspace s.
Definition rstrip (s : pystr) : pystr := rev (dropwhile isspace (rev s)).
Definition strip (s : pystr) : pystr := rstrip (lstrip s).

(** Truthiness of a string: [bool(s)]. *)
Definition truthy (s : pystr) : bool :=
  match s with [] => false | _ => true end.

(** [s[i:j]] for [0 <= i <= j]; indices past the end are clamped. *)
Definition slice (A : Type) (s : list A) (i j : nat) : list A :=
  firstn (j - i) (skipn i s).

(** [range(0, stop, step)] for [step >= 1]: its length is
    [ceil(stop / step)]. *)
Definition range0 (stop step : nat) : list nat :=
  map (fun k => k * step) (seq 0 ((stop + step - 1) / step)).

(** [sep.join(parts)]. *)
Fixpoint join (sep : pystr) (parts : list pystr) : pystr :=
  match parts with
  | [] => []
  | [p] => p
  | p :: rest => p ++ sep ++ join sep rest
  end.

(** [s.split()]: maximal runs of non-whitespace, left to right.  [cur]
    is the word being read, last character first ([rev'] is the
    linear-time reverse). *)
Fixpoint split_ws_from (cur : pystr) (s : pystr) : list pystr :=
  match s with
  | [] => match cur with [] => [] | _ => [rev' cur] end
  | c :: s' =>
      if isspace c
      then match cur with
           | [] => split_ws_from [] s'
           | _ => rev' cur :: split_ws_from [] s'
           end
      else split_ws_from (c :: cur) s'
  end.

Definition split_ws (s : pystr) : list pystr := split_ws_from [] s.

(** [s.split('\n\n')]: pieces between non-overlapping occurrences of two
    consecutive line feeds, scanned left to right; always at least one
    piece.  [cur] is the piece being read, last character first. *)
Fixpoint split_nn_from (cur : pystr) (s : pystr) : list pystr :=
  match s with
  | [] => [rev cur]
  | c :: s' =>
      match s' with
      | d :: s'' =>
          if ((c =? NL) && (d =? NL))%N
          then rev cur :: split_nn_from [] s''
          else split_nn_from (c :: cur) s'
      | [] => [rev (c :: cur)]
      end
  end.

Definition split_nn (s : pystr) : list pystr := split_nn_from [] s.

(** [s.replace(old, new)] where [old] is a single character, which is how
    [create_pdf] calls it. *)
Definition replace (old : char) (new : pystr) (s : pystr) : pystr :=
  flat_map (fun c => if (c =? old)%N then new else [c]) s.

End PyStr.
Import PyStr.

(** ** Exceptions, requests and observable events *)

(** The exceptions the program can see.  [Exception] and [ValueError] are
    raised by [translator.py] itself; [IndexError] and [TypeError] by the
    interpreter; [LibraryError cls msg] stands for any exception of class
    [cls] raised inside a collaborator (openai, pypdf, fpdf). *)
Inductive exn : Type :=
| Exception (msg : pystr)
| ValueError (msg : pystr)
| IndexError (msg : pystr)
| TypeError (msg : pystr)
| LibraryError (cls msg : pystr).

(** [str(e)]. *)
Definition str_of_exn (e : exn) : pystr :=
  match e with
  | Exception msg | ValueError msg | IndexError msg | TypeError msg => msg
  | LibraryError _ msg => msg
  end.

(** One entry of [messages=[...]]. *)
Record Message := { role : pystr; content : pystr }.

(** The keyword arguments of [client.chat.completions.create]. *)
Record Request := {
  req_model : pystr;
  req_messages : list Message;
  req_temperature : Q
}.

(** A completion: [response.choices], each choice reduced to its
    [message.content], which the client types as optional. *)
Definition Response := list (option pystr).

(** What the program does to the outside world, in order. *)
Inductive event : Type :=
| Print (line : pystr)                    (* print(line) *)
| OpenPdf (path : pystr)                  (* PdfReader(path) *)
| ChatCreate (req : Request)              (* client.chat.completions.create *)
| MultiCell (w h : nat) (text : pystr)    (* pdf.multi_cell(w, h, text=text) *)
| Output (path : pystr).                  (* pdf.output(path) *)

Definition is_print (ev : event) : bool :=
  match ev with Print _ => true | _ => false end.

(** The calls made to the collaborators, in order: the events that are
    not lines of output. *)
Definition actions (evs : list event) : list event :=
  filter (fun ev => negb (is_print ev)) evs.

(** The requests sent to the remote service, in order. *)
Definition chat_requests (evs : list event) : list Request :=
  flat_map (fun ev => match ev with ChatCreate r => [r] | _ => [] end) evs.

(** ** The collaborators *)

(** Everything [translator.py] imports and calls.  The remote service is a
    state machine of unknown state, so that its answer to a request may
    depend on everything it was sent before; the fpdf document is an
    object of unknown state whose [multi_cell] may raise. *)
Class Collaborators : Type := {
  Svc : Type;
  chat_completions_create : Svc -> Request -> Svc * (exn + Response);
  getenv : pystr -> option pystr;
  PdfReader : pystr -> exn + list pystr;   (* the text of each page *)
  Pdf : Type;
  FPDF : Pdf;
  add_page : Pdf -> Pdf;
  set_auto_page_break : Pdf -> bool -> nat -> Pdf;
  set_font : Pdf -> pystr -> nat -> Pdf;
  multi_cell : Pdf -> nat -> nat -> pystr -> Pdf * option exn;
  ln : Pdf -> nat -> Pdf;
  output : Pdf -> pystr -> option exn
}.

(** The state the program runs in: what it has done so far, and the
    state of the remote service. *)
Record World `{Collaborators} : Type := mkWorld {
  events : list event;
  remote : Svc
}.

(** ** The monad: state that survives exceptions *)

Module Eff.
Section Eff.
Context `{Collaborators}.

Definition M (A : Type) : Type := World -> World * (exn + A).

Definition ret {A} (a : A) : M A := fun w => (w, inr a).

Definition bind {A B} (c : M A) (k : A -> M B) : M B :=
  fun w => match c w with
           | (w', inr a) => k a w'
           | (w', inl e) => (w', inl e)
           end.

Definition raise {A} (e : exn) : M A := fun w => (w, inl e).

Definition emit (ev : event) : M unit :=
  fun w => ({| events := events w ++ [ev]; remote := remote w |}, inr tt).

Definition print (line : pystr) : M unit := emit (Print line).

(** A call of a function that returns a value or raises. *)
Definition lift_result {A} (r : exn + A) : M A := fun w => (w, r).

(** One blocking exchange with the remote service. *)
Definition chat_create (req : Request) : M Response :=
  fun w =>
    let '(s', ans) := chat_completions_create (remote w) req in
    ({| events := events w ++ [ChatCreate req]; remote := s' |}, ans).
End Eff.
End Eff.
Import Eff.

Notation "x <- c ;; k" := (bind c (fun x => k))
  (at level 61, c at next level, right associativity).
Notation "c ;; k" := (bind c (fun _ => k))
  (at level 61, right associativity).

(** ** [class PDFTranslator] *)

Module PDFTranslator.
Section Program.
Context `{Collaborators}.

(** The attributes set by [__init__]; [self.client] is the OpenAI
    client built from [api_key], reached through [chat_create]. *)
Record self_t := { api_key : pystr; model : pystr }.

(** [bool(x)] for [x] a [str] or [None]. *)
Definition truthy_opt (x : option pystr) : bool :=
  match x with Some s => truthy s | None => false end.

(** [a or b]. *)
Definition py_or (a b : option pystr) : option pystr :=
  if truthy_opt a then a else b.

(** [__init__(self, api_key=None)]. *)
Definition init (api_key_arg : option pystr) : M self_t :=
  let key := py_or api_key_arg (getenv (lit "OPENAI_API_KEY")) in
  match key with
  | Some k =>
      if truthy k
      then print (lit "Translator Successfully Initialized.") ;;
           ret {| api_key := k; model := lit "gpt-4o-mini" |}
      else raise (Exception (lit "API key is not found. Set it in .env file."))
  | None => raise (Exception (lit "API key is not found. Set it in .env file."))
  end.

(** *** [extract_text] *)

(** The body of [for page_num, page in enumerate(reader.pages, 1)];
    [total] is [len(reader.pages)] and [text] the accumulator. *)
Fixpoint extract_loop (total page_num : nat) (pages : list pystr)
    (text : pystr) : M pystr :=
  match pages with
  | [] => ret text
  | page_text :: rest =>
      print (lit " Reading page: " ++ str_of_nat page_num ++ lit "/"
             ++ str_of_nat total) ;;
      extract_loop total (S page_num) rest (text ++ (page_text ++ [NL; NL]))
  end.

Definition extract_text (self : self_t) (pdf_path : pystr) : M pystr :=
  print (lit "Extracting text from PDF: " ++ pdf_path) ;;
  emit (OpenPdf pdf_path) ;;
  pages <- lift_result (PdfReader pdf_path) ;;
  text <- extract_loop (length pages) 1 pages [] ;;
  ret (strip text).

(** *** [translate_text] *)

(** The chunks cut by character offset:
    [[text[i:i + chunk_size] for i in range(0, len(text), chunk_size)]]. *)
Definition char_chunks (chunk_size : nat) (text : pystr) : list pystr :=
  map (fun i => slice text i (i + chunk_size))
      (range0 (length text) chunk_size).

(** The chunks the second loop appends: [' '.join(words[i:i + chunk_size])]
    for [i in range(0, len(words), chunk_size)]. *)
Definition word_chunks (chunk_size : nat) (text : pystr) : list pystr :=
  let words := split_ws text in
  map (fun i => join [SP] (slice words i (i + chunk_size)))
      (range0 (length words) chunk_size).

(** The list [chunks] when the translation loop starts. *)
Definition make_chunks (chunk_size : nat) (text : pystr) : list pystr :=
  char_chunks chunk_size text ++ word_chunks chunk_size text.

Definition chunk_size : nat := 15000.

(** The request built for chunk [i] of [total]. *)
Definition request_for (self : self_t) (target_language : pystr)
    (total i : nat) (chunk : pystr) : Request :=
  let prompt :=
    lit "Translate the following text to " ++ target_language
    ++ lit ". This is part " ++ str_of_nat i ++ lit " of " ++ str_of_nat total
    ++ lit ". Maintain the original formatting and do NOT add any introductory text:"
    ++ [NL; NL] ++ chunk in
  {| req_model := model self;
     req_messages :=
       [ {| role := lit "system";
            content :=
              lit "You are a professional translator. Translate text accurately to "
              ++ target_language
              ++ lit ". Output ONLY the translation, no explanations or notes." |};
         {| role := lit "user"; content := prompt |} ];
     req_temperature := 3 # 10 |}.

(** [response.choices[0].message.content], followed by the slice
    [translated_text[:50]] of the preview line, which is where a [None]
    content raises. *)
Definition first_content (response : Response) : exn + pystr :=
  match response with
  | [] => inl (IndexError (lit "list index out of range"))
  | None :: _ => inl (TypeError (lit "'NoneType' object is not subscriptable"))
  | Some translated_text :: _ => inr translated_text
  end.

(** The body of [for i, chunk in enumerate(chunks, 1)]; [total] is
    [len(chunks)].  A [None] content is appended to [translated_chunks]
    before the preview line raises; the list is local, so the append is
    not observable and the model raises first. *)
Fixpoint translate_loop (self : self_t) (target_language : pystr)
    (total i : nat) (chunks : list pystr) (translated_chunks : list pystr)
    : M (list pystr) :=
  match chunks with
  | [] => ret translated_chunks
  | chunk :: rest =>
      print (lit "  " ++ [10148%N] ++ lit " Translating chunk " ++ str_of_nat i
             ++ lit "/" ++ str_of_nat total) ;;
      response <- chat_create (request_for self target_language total i chunk) ;;
      translated_text <- lift_result (first_content response) ;;
      print (lit "      Preview: " ++ firstn 50 translated_text ++ lit "...") ;;
      translate_loop self target_language total (S i) rest
                     (translated_chunks ++ [translated_text])
  end.

(** [translate_text] with the local constant [chunk_size] as a
    parameter. *)
Definition translate_text_sized (size : nat) (self : self_t)
    (text target_language : pystr) : M pystr :=
  print ([127760%N] ++ lit " Translating to " ++ target_language ++ lit "...") ;;
  let chunks := make_chunks size text in
  print (lit "  " ++ [10148%N] ++ lit " Split into "
         ++ str_of_nat (length chunks) ++ lit " chunk(s)") ;;
  translated_chunks <-
    translate_loop self target_language (length chunks) 1 chunks [] ;;
  let full_translation := join [NL; NL] translated_chunks in
  print ([10003%N] ++ lit " Translation complete!") ;;
  ret full_translation.

Definition translate_text : self_t -> pystr -> pystr -> M pystr :=
  translate_text_sized chunk_size.

(** *** [create_pdf] *)

(** The chain of [replace] calls that builds [clean_para]. *)
Definition clean_para (para : pystr) : pystr :=
  replace 8230%N (lit "...")
    (replace 8212%N (lit "-")
      (replace 8221%N [34%N]
        (replace 8220%N [34%N]
          (replace 8217%N (lit "'")
            (replace 8216%N (lit "'") para))))).

(** The three counters of the paragraph loop. *)
Record render_state := {
  pdf : Pdf;
  lines_added : nat;
  lines_skipped : nat
}.

(** The body of [for para in paragraphs].  The [try] block calls
    [pdf.multi_cell(0, 6, text=clean_para)], then [pdf.ln(4)] and counts
    the paragraph; when [multi_cell] raises, the [except Exception]
    branch counts and reports it instead, and the document object stays
    as the failed call left it.  Either way the loop goes on. *)
Fixpoint render_loop (paragraphs : list pystr) (st : render_state)
    : M render_state :=
  match paragraphs with
  | [] => ret st
  | para :: rest =>
      if negb (truthy (strip para))
      then render_loop rest st
      else
        emit (MultiCell 0 6 (clean_para para)) ;;
        match multi_cell (pdf st) 0 6 (clean_para para) with
        | (doc', None) =>
            render_loop rest
              {| pdf := ln doc' 4;
                 lines_added := lines_added st + 1;
                 lines_skipped := lines_skipped st |}
        | (doc', Some e) =>
            print (lit "  " ++ [9888%N] ++ lit " Skipped paragraph: "
                   ++ str_of_exn e) ;;
            render_loop rest
              {| pdf := doc';
                 lines_added := lines_added st;
                 lines_skipped := lines_skipped st + 1 |}
        end
  end.

(** [pdf.output(output_path)]. *)
Definition call_output (doc : Pdf) (output_path : pystr) : M unit :=
  emit (Output output_path) ;;
  match output doc output_path with
  | Some e => raise e
  | None => ret tt
  end.

Definition create_pdf (self : self_t) (text output_path : pystr) : M unit :=
  print ([128196%N] ++ lit " Creating PDF: " ++ output_path) ;;
  let doc := FPDF in
  let doc := add_page doc in
  let doc := set_auto_page_break doc true 15 in
  let doc := set_font doc (lit "Helvetica") 11 in
  let paragraphs := split_nn text in
  st <- render_loop paragraphs
          {| pdf := doc; lines_added := 0; lines_skipped := 0 |} ;;
  call_output (pdf st) output_path ;;
  print ([10003%N] ++ lit " PDF created successfully!") ;;
  print (lit "  " ++ [10148%N] ++ lit " Paragraphs added: "
         ++ str_of_nat (lines_added st)) ;;
  (if 0 <? lines_skipped st
   then print (lit "  " ++ [9888%N] ++ lit " Paragraphs skipped: "
               ++ str_of_nat (lines_skipped st))
   else ret tt).

(** *** [translate_pdf] and the script *)

Definition translate_pdf (self : self_t)
    (input_path output_path target_language : pystr) : M pystr :=
  print (repeat 61%N 60) ;;
  print (lit "PDF TRANSLATION STARTING") ;;
  print (repeat 61%N 60) ;;
  text <- extract_text self input_path ;;
  print ([NL; 10003%N] ++ lit " Extracted " ++ str_of_nat (length text)
         ++ lit " characters" ++ [NL]) ;;
  if negb (truthy text)
  then raise (ValueError (lit "No text found in PDF!"))
  else
    translated_text <- translate_text self text target_language ;;
    print [] ;;
    create_pdf self translated_text output_path ;;
    print ([NL] ++ repeat 61%N 60) ;;
    print (lit "TRANSLATION COMPLETE!") ;;
    print (repeat 61%N 60) ;;
    ret translated_text.

(** The [if __name__ == "__main__"] block. *)
Definition main : M unit :=
  translator <- init None ;;
  translate_pdf translator (lit "test.pdf") (lit "test_spanish.pdf")
                (lit "Spanish") ;;
  print ([NL; 10003%N] ++ lit " Check your folder for 'test_spanish.pdf'!").
End Program.
End PDFTranslator.
Import PDFTranslator.

(** ** [app.py]: the Translate button *)

Module App.
Section Handler.
Context `{Collaborators}.

(** The calls of the [try] block that runs when the button is pressed,
    once the uploaded file is at [input_path].  The Streamlit widgets
    (progress bar, status text, download button) and the temporary files
    are left out; the block is reached only when the environment holds a
    key.  The handler calls the three steps itself and not
    [translate_pdf]. *)
Definition on_translate (input_path output_path target_lang : pystr)
    : M pystr :=
  translator <- init None ;;
  text <- extract_text translator input_path ;;
  translated_text <- translate_text translator text target_lang ;;
  create_pdf translator translated_text output_path ;;
  ret translated_text.
End Handler.
End App.

(** ** Reference runs of the collaborators

    Pure functions that replay what a collaborator answers to a given
    sequence of calls.  The theorems relate the loops of the program to
    these replays. *)

Section Replay.
Context `{Collaborators}.

(** The answers of the remote service to [reqs], sent one after the
    other starting in state [s]. *)
Fixpoint serve (s : Svc) (reqs : list Request) : list (exn + Response) :=
  match reqs with
  | [] => []
  | r :: rest =>
      let '(s', ans) := chat_completions_create s r in
      ans :: serve s' rest
  end.

(** What one answer gives the translation loop: a translated chunk, or
    the exception that leaves the loop. *)
Definition reply_of (ans : exn + Response) : exn + pystr :=
  match ans with
  | inl e => inl e
  | inr response => first_content response
  end.

(** The requests for [chunks], numbered from [i]. *)
Fixpoint requests_from (self : self_t) (target_language : pystr)
    (total i : nat) (chunks : list pystr) : list Request :=
  match chunks with
  | [] => []
  | chunk :: rest =>
      request_for self target_language total i chunk
      :: requests_from self target_language total (S i) rest
  end.

Definition requests_of (self : self_t) (target_language : pystr)
    (chunks : list pystr) : list Request :=
  requests_from self target_language (length chunks) 1 chunks.

(** What the translation loop makes of a sequence of replies, with
    [acc] already translated: all the translated chunks when every
    reply is one, else the first exception; and how many replies it
    consumed. *)
Fixpoint gather (acc : list pystr) (replies : list (exn + pystr))
    : (exn + list pystr) * nat :=
  match replies with
  | [] => (inr acc, 0)
  | inl e :: _ => (inl e, 1)
  | inr t :: rest =>
      let '(res, n) := gather (acc ++ [t]) rest in (res, S n)
  end.

(** The outcome of [multi_cell] on each of [texts] in turn, starting
    from document [doc] ([None]: written, [Some e]: raised [e]), and
    the document at the end. *)
Fixpoint render_run (doc : Pdf) (texts : list pystr)
    : list (option exn) * Pdf :=
  match texts with
  | [] => ([], doc)
  | t :: rest =>
      match multi_cell doc 0 6 t with
      | (doc', None) =>
          let '(outs, final) := render_run (ln doc' 4) rest in
          (None :: outs, final)
      | (doc', Some e) =>
          let '(outs, final) := render_run doc' rest in
          (Some e :: outs, final)
      end
  end.

(** The document [create_pdf] starts from. *)
Definition fresh_pdf : Pdf :=
  set_font (set_auto_page_break (add_page FPDF) true 15) (lit "Helvetica") 11.
End Replay.

Definition written (outs : list (option exn)) : nat :=
  length (filter (fun o => match o with None => true | Some _ => false end) outs).

Definition raised (outs : list (option exn)) : nat :=
  length (filter (fun o => match o with None => false | Some _ => true end) outs).

(** The paragraphs [create_pdf] tries to write: those of
    [text.split('\n\n')] that are not blank. *)
Definition nonblank (para : pystr) : bool := truthy (strip para).

Definition paragraphs_of (text : pystr) : list pystr :=
  filter nonblank (split_nn text).

(** The lines [extract_text] prints while it reads [pages], numbered from
    [page_num]. *)
Fixpoint reading_lines (total page_num : nat) (pages : list pystr)
    : list event :=
  match pages with
  | [] => []
  | _ :: rest =>
      Print (lit " Reading page: " ++ str_of_nat page_num ++ lit "/"
             ++ str_of_nat total)
      :: reading_lines total (S page_num) rest
  end.

(** The text of all pages, each followed by a blank line. *)
Definition pages_text (pages : list pystr) : pystr :=
  flat_map (fun page_text => page_text ++ [NL; NL]) pages.

(** The table of substitutions as the specification words it: curly
    quotes, em-dash and ellipsis go to plain ASCII, anything else stays. *)
Definition plain_ascii (c : char) : pystr :=
  if (c =? 8216)%N then lit "'"            (* U+2018 *)
  else if (c =? 8217)%N then lit "'"       (* U+2019 *)
  else if (c =? 8220)%N then [34%N]        (* U+201C *)
  else if (c =? 8221)%N then [34%N]        (* U+201D *)
  else if (c =? 8212)%N then lit "-"       (* U+2014 *)
  else if (c =? 8230)%N then lit "..."     (* U+2026 *)
  else [c].

Definition smart_punctuation : list char :=
  [8216; 8217; 8220; 8221; 8212; 8230]%N.

(** The exception [__init__] raises when it finds no key. *)
Definition missing_key : exn :=
  Exception (lit "API key is not found. Set it in .env file.").

(** The lines that end [create_pdf]: the count of paragraphs added, and
    the count of paragraphs skipped when there is one. *)
Definition report_lines (added skipped : nat) : list event :=
  [Print ([10003%N] ++ lit " PDF created successfully!");
   Print (lit "  " ++ [10148%N] ++ lit " Paragraphs added: " ++ str_of_nat added)]
  ++ (if 0 <? skipped
      then [Print (lit "  " ++ [9888%N] ++ lit " Paragraphs skipped: "
                   ++ str_of_nat skipped)]
      else []).

(** ** A concrete set of collaborators

    Used to run the program on examples.  The service follows a script of
    answers and, once the script is used up, returns the user message
    unchanged; the document object is the list of blocks written, and
    [multi_cell] raises on a character outside Latin-1, as fpdf does
    with a core font. *)
Module Demo.

Definition pystr_eqb (a b : pystr) : bool :=
  if list_eq_dec N.eq_dec a b then true else false.

Definition scripted (s : list (exn + Response)) (req : Request)
    : list (exn + Response) * (exn + Response) :=
  match s with
  | ans :: s' => (s', ans)
  | [] => ([], inr [Some (content (last (req_messages req)
                                        {| role := []; content := [] |}))])
  end.

Definition files (path : pystr) : exn + list pystr :=
  if pystr_eqb path (lit "test.pdf")
  then inr [lit "Hello world."; lit "Second page."]
  else if pystr_eqb path (lit "scan.pdf")
  then inr [[]; lit "  "]
  else inl (LibraryError (lit "FileNotFoundError")
                         (lit "No such file or directory")).

Definition latin1 (text : pystr) : bool :=
  forallb (fun c => (c <? 256)%N) text.

Definition write_block (doc : list pystr) (w h : nat) (text : pystr)
    : list pystr * option exn :=
  if latin1 text
  then (doc ++ [text], None)
  else (doc, Some (LibraryError (lit "FPDFUnicodeEncodingException")
                                (lit "Character outside the range of the font"))).

(** The collaborators when the environment holds [key] for
    [OPENAI_API_KEY]. *)
Definition collaborators (key : option pystr) : Collaborators :=
  {| Svc := list (exn + Response);
     chat_completions_create := scripted;
     getenv := fun name =>
                 if pystr_eqb name (lit "OPENAI_API_KEY") then key else None;
     PdfReader := files;
     Pdf := list pystr;
     FPDF := [];
     add_page := fun doc => doc;
     set_auto_page_break := fun doc _ _ => doc;
     set_font := fun doc _ _ => doc;
     multi_cell := write_block;
     ln := fun doc _ => doc;
     output := fun _ _ => None |}.

Definition with_key : Collaborators := collaborators (Some (lit "sk-test")).
Definition without_key : Collaborators := collaborators None.

Definition permission_error : exn :=
  LibraryError (lit "PermissionError") (lit "Permission denied").

(** The same collaborators, with a key, on a disk where [pdf.output]
    cannot write. *)
Definition read_only_disk : Collaborators :=
  {| Svc := list (exn + Response);
     chat_completions_create := scripted;
     getenv := fun name =>
                 if pystr_eqb name (lit "OPENAI_API_KEY")
                 then Some (lit "sk-test") else None;
     PdfReader := files;
     Pdf := list pystr;
     FPDF := [];
     add_page := fun doc => doc;
     set_auto_page_break := fun doc _ _ => doc;
     set_font := fun doc _ _ => doc;
     multi_cell := write_block;
     ln := fun doc _ => doc;
     output := fun _ _ => Some permission_error |}.

(** A world in which nothing has happened yet and the service will
    follow [script]. *)
Definition start (C : Collaborators) (script : @Svc C) : @World C :=
  {| events := []; remote := script |}.

Definition me : self_t :=
  {| api_key := lit "sk-test"; model := lit "gpt-4o-mini" |}.

Definition connection_error : exn :=
  LibraryError (lit "APIConnectionError") (lit "Connection error.").

Definition spanish : pystr := lit "Spanish".

Definition uno : pystr := lit "uno".
Definition dos : pystr := lit "dos".

(** Three scripts for a text of two chunks: both requests answered;
    the first one failing; the second one failing. *)
Definition both_answered : list (exn + Response) :=
  [inr [Some uno]; inr [Some dos]].
Definition first_fails : list (exn + Response) := [inl connection_error].
Definition second_fails : list (exn + Response) :=
  [inr [Some uno]; inl connection_error].

(** Three paragraphs, the second one a euro sign, which is outside
    Latin-1 and not in the substitution table. *)
Definition three_paragraphs : pystr :=
  lit "ok" ++ [NL; NL] ++ [8364%N] ++ [NL; NL] ++ lit "fine".

(** What the service returns once its script is used up. *)
Definition echo (req : Request) : pystr :=
  content (last (req_messages req) {| role := []; content := [] |}).

(** The number of characters of each chunk. *)
Definition lengths (chunks : list pystr) : list N :=
  map (fun chunk => N.of_nat (length chunk)) chunks.

(** [translate_text] on [text], from a fresh world where the service
    follows [script]. *)
Definition translate (script : list (exn + Response)) (text : pystr)
    : @World with_key * (exn + pystr) :=
  @translate_text with_key me text spanish (start with_key script).
End Demo.

(** ** The model on examples *)

Example isspace_examples :
  map isspace [32; 10; 9; 160; 97; 8212]%N = [true; true; true; true; false; false].
Proof. reflexivity. Qed.

Example split_ws_example :
  split_ws (lit "  ab  c
 d ") = [lit "ab"; lit "c"; lit "d"].
Proof. reflexivity. Qed.

Example split_nn_example :
  split_nn (lit "a

b


c") = [lit "a"; lit "b"; lit "
c"].
Proof. reflexivity. Qed.

Example range0_example : range0 32000 15000 = [0; 15000; 30000].
Proof. reflexivity. Qed.

Example str_of_nat_example : str_of_nat 15000 = lit "15000".
Proof. reflexivity. Qed.

Example demo_translate_pdf :
  snd (@translate_pdf Demo.with_key Demo.me (lit "test.pdf") (lit "out.pdf")
         Demo.spanish
         (Demo.start Demo.with_key [inr [Some (lit "Hola mundo.")];
                                    inr [Some (lit "Hola mundo. Segunda.")]]))
  = inr (lit "Hola mundo." ++ [NL; NL] ++ lit "Hola mundo. Segunda.").
Proof. vm_compute. reflexivity. Qed.

(** ** Slicing into windows *)

Section Windows.
Variable A : Type.

Lemma slice_from_zero (l : list A) (n : nat) : slice l 0 n = firstn n l.
Proof. unfold slice. simpl. now rewrite Nat.sub_0_r. Qed.

Lemma slice_shift (l : list A) (n i j : nat) :
  slice l (n + i) (n + i + j) = slice (skipn n l) i (i + j).
Proof.
  unfold slice. rewrite skipn_skipn.
  replace (n + i + j - (n + i)) with j by lia.
  replace (i + j - i) with j by lia.
  now rewrite (Nat.add_comm i n).
Qed.

Lemma slice_length_le (l : list A) (i j : nat) : length (slice l i j) <= j - i.
Proof. unfold slice. apply firstn_le_length. Qed.

(** [k] consecutive windows of width [n] cover a list no longer than
    [k * n]. *)
Lemma windows_concat (n k : nat) : forall l : list A,
  length l <= k * n ->
  concat (map (fun i => slice l i (i + n)) (map (fun j => j * n) (seq 0 k))) = l.
Proof.
  induction k as [|k IH]; intros l Hlen.
  - destruct l; [reflexivity | simpl in Hlen; lia].
  - simpl seq. rewrite <- seq_shift. simpl map. simpl concat.
    rewrite slice_from_zero. rewrite !map_map.
    rewrite (map_ext (fun j => slice l (S j * n) (S j * n + n))
                     (fun j => slice (skipn n l) (j * n) (j * n + n))).
    + rewrite <- (map_map (fun j => j * n)
                          (fun i => slice (skipn n l) i (i + n))).
      rewrite IH.
      * apply firstn_skipn.
      * rewrite length_skipn. simpl in Hlen. lia.
    + intros j. simpl. apply slice_shift.
Qed.

Lemma range0_covers (stop step : nat) :
  1 <= step -> stop <= (stop + step - 1) / step * step.
Proof.
  intros Hstep.
  pose proof (Nat.div_mod_eq (stop + step - 1) step) as Hdm.
  pose proof (Nat.mod_upper_bound (stop + step - 1) step) as Hlt.
  nia.
Qed.

(** Python's [[l[i:i+n] for i in range(0, len(l), n)]] loses nothing. *)
Lemma windows_of_range0 (n : nat) (l : list A) :
  1 <= n ->
  concat (map (fun i => slice l i (i + n)) (range0 (length l) n)) = l.
Proof.
  intros Hn. unfold range0. apply windows_concat. now apply range0_covers.
Qed.

Lemma windows_bounded (n : nat) (l : list A) (offsets : list nat) :
  Forall (fun c => length c <= n) (map (fun i => slice l i (i + n)) offsets).
Proof.
  apply Forall_forall. intros c Hc. apply in_map_iff in Hc.
  destruct Hc as [i [<- _]].
  pose proof (slice_length_le l i (i + n)). lia.
Qed.
End Windows.

(** The character windows alone rebuild the text. *)
Lemma char_chunks_concat (size : nat) (text : pystr) :
  1 <= size -> concat (char_chunks size text) = text.
Proof. intros Hsize. unfold char_chunks. now apply windows_of_range0. Qed.

(** Every character window holds at most [size] characters. *)
Lemma char_chunks_bounded (size : nat) (text : pystr) :
  Forall (fun c => length c <= size) (char_chunks size text).
Proof. unfold char_chunks. apply windows_bounded. Qed.

(** What the chunk list of [translate_text] concatenates to: the text,
    followed by whatever the word loop appended. *)
Lemma make_chunks_concat (size : nat) (text : pystr) :
  1 <= size ->
  concat (make_chunks size text) = text ++ concat (word_chunks size text).
Proof.
  intros Hsize. unfold make_chunks.
  now rewrite concat_app, char_chunks_concat.
Qed.

(** A text without any word gets no chunk from the word loop. *)
Lemma word_chunks_no_words (size : nat) (text : pystr) :
  split_ws text = [] -> word_chunks size text = [].
Proof.
  intros Hw. unfold word_chunks, range0. rewrite Hw. simpl.
  destruct size as [|n]; [reflexivity|].
  replace (0 + S n - 1) with n by lia.
  rewrite Nat.div_small by lia. reflexivity.
Qed.

(** *** When the chunk list rebuilds the text *)

Lemma rev'_not_nil (c : char) (cur : pystr) : rev' (c :: cur) <> [].
Proof.
  unfold rev'. rewrite <- rev_alt. simpl. intros Hnil.
  now apply app_eq_nil in Hnil.
Qed.

(** [split()] returns no empty word. *)
Lemma split_ws_from_words : forall s cur,
  Forall (fun word => word <> []) (split_ws_from cur s).
Proof.
  induction s as [|c s IH]; intros cur; simpl.
  - destruct cur as [|d cur]; constructor; [apply rev'_not_nil | constructor].
  - destruct (isspace c).
    + destruct cur as [|d cur]; [apply IH|].
      constructor; [apply rev'_not_nil | apply IH].
    + apply IH.
Qed.

Lemma join_not_nil (sep word : pystr) (rest : list pystr) :
  word <> [] -> join sep (word :: rest) <> [].
Proof.
  intros Hword. simpl. destruct rest as [|next rest]; [exact Hword|].
  intros Hnil. apply app_eq_nil in Hnil. now destruct Hnil.
Qed.

Lemma range0_starts_at_zero (stop step : nat) :
  1 <= stop -> 1 <= step -> exists later, range0 stop step = 0 :: later.
Proof.
  intros Hstop Hstep. unfold range0.
  assert (Hq : 1 <= (stop + step - 1) / step).
  { apply Nat.div_le_lower_bound; lia. }
  destruct ((stop + step - 1) / step) as [|q]; [lia|].
  simpl. eauto.
Qed.

(** As soon as the text holds a word, the word loop appends something. *)
Lemma word_chunks_not_nil (size : nat) (text : pystr) :
  1 <= size -> split_ws text <> [] -> concat (word_chunks size text) <> [].
Proof.
  intros Hsize Hwords. unfold word_chunks.
  pose proof (split_ws_from_words text []) as Hne. fold (split_ws text) in Hne.
  destruct (split_ws text) as [|word rest]; [congruence|].
  inversion Hne as [|? ? Hword _]; subst.
  destruct (@range0_starts_at_zero (length (word :: rest)) size) as [later ->];
    [simpl; lia | exact Hsize |].
  simpl map. simpl concat. rewrite slice_from_zero.
  destruct size as [|n]; [lia|]. simpl firstn.
  intros Hnil. apply app_eq_nil in Hnil. destruct Hnil as [Hjoin _].
  exact (join_not_nil [SP] (firstn n rest) Hword Hjoin).
Qed.

(** The chunk list of [translate_text] concatenates to the text exactly
    when the text holds no word, that is, is empty or all whitespace. *)
Lemma make_chunks_round_trip_iff (size : nat) (text : pystr) :
  1 <= size ->
  concat (make_chunks size text) = text <-> split_ws text = [].
Proof.
  intros Hsize. rewrite make_chunks_concat by exact Hsize. split.
  - intros Heq.
    destruct (split_ws text) as [|word rest] eqn:Hwords; [reflexivity|].
    exfalso. apply (@word_chunks_not_nil size text Hsize).
    + rewrite Hwords. discriminate.
    + apply (app_inv_head text). now rewrite app_nil_r.
  - intros Hwords. rewrite (word_chunks_no_words size text Hwords).
    apply app_nil_r.
Qed.

(** *** How many chunks a text of 32000 characters gets *)

Lemma slice_length (A : Type) (l : list A) (i j : nat) :
  length (slice l i j) = Nat.min (j - i) (length l - i).
Proof. unfold slice. now rewrite length_firstn, length_skipn. Qed.

Lemma word_chunks_nil_iff (size : nat) (text : pystr) :
  1 <= size -> word_chunks size text = [] <-> split_ws text = [].
Proof.
  intros Hsize. split; [|apply word_chunks_no_words].
  intros Hnil. destruct (split_ws text) as [|word rest] eqn:Hwords; [reflexivity|].
  exfalso. apply (@word_chunks_not_nil size text Hsize).
  - rewrite Hwords. discriminate.
  - now rewrite Hnil.
Qed.

(** Any text of 32000 characters: the character windows are three, of
    15000, 15000 and 2000 characters, and the chunk list has exactly three
    chunks only when the text holds no word. *)
Lemma chunks_of_32000_characters (text : pystr) :
  length text = 32000 ->
  Demo.lengths (char_chunks chunk_size text) = [15000; 15000; 2000]%N
  /\ (length (make_chunks chunk_size text) = 3 <-> split_ws text = []).
Proof.
  intros Hlen.
  assert (Hcount : (32000 + chunk_size - 1) / chunk_size = 3)
    by (vm_compute; reflexivity).
  assert (Hsize : 1 <= chunk_size) by (apply Nat.leb_le; vm_compute; reflexivity).
  split.
  - unfold char_chunks, Demo.lengths, range0. rewrite Hlen, Hcount.
    cbn [seq map]. rewrite !slice_length, Hlen. vm_compute. reflexivity.
  - unfold make_chunks. rewrite length_app. unfold char_chunks at 1.
    unfold range0 at 1. rewrite !length_map, length_seq, Hlen, Hcount.
    rewrite <- (@word_chunks_nil_iff chunk_size text Hsize).
    destruct (word_chunks chunk_size text) as [|chunk rest].
    + split; reflexivity.
    + split; intros Hthree; [|discriminate].
      cbn [length] in Hthree. lia.
Qed.

(** ** The translation loop *)

Ltac step :=
  unfold bind, print, emit, ret, raise, lift_result, chat_create; simpl.

Lemma actions_app (l1 l2 : list event) :
  actions (l1 ++ l2) = actions l1 ++ actions l2.
Proof. apply filter_app. Qed.

Lemma actions_print (l : list event) (line : pystr) :
  actions (l ++ [Print line]) = actions l.
Proof. rewrite actions_app. simpl. apply app_nil_r. Qed.

Lemma chat_requests_actions (evs : list event) :
  chat_requests (actions evs) = chat_requests evs.
Proof.
  induction evs as [|ev evs IH]; [reflexivity|].
  destruct ev; simpl; rewrite ?IH; reflexivity.
Qed.

Lemma chat_requests_app (l1 l2 : list event) :
  chat_requests (l1 ++ l2) = chat_requests l1 ++ chat_requests l2.
Proof. apply flat_map_app. Qed.

Lemma chat_requests_map_ChatCreate (reqs : list Request) :
  chat_requests (map ChatCreate reqs) = reqs.
Proof. induction reqs as [|r rs IH]; simpl; [|rewrite IH]; reflexivity. Qed.

Lemma gather_all (ts acc : list pystr) :
  gather acc (map inr ts) = (inr (acc ++ ts), length ts).
Proof.
  revert acc. induction ts as [|t ts IH]; intros acc; simpl.
  - now rewrite app_nil_r.
  - rewrite IH. now rewrite <- app_assoc.
Qed.

Lemma gather_first_error (ts acc : list pystr) (e : exn)
    (later : list (exn + pystr)) :
  gather acc (map inr ts ++ inl e :: later) = (inl e, S (length ts)).
Proof.
  revert acc. induction ts as [|t ts IH]; intros acc; simpl.
  - reflexivity.
  - now rewrite IH.
Qed.

Section TranslateLoop.
Context `{Collaborators}.
Variables (self : self_t) (target_language : pystr) (total : nat).

(** The loop does what [gather] makes of the service's replies, and
    sends exactly the requests that [gather] consumed a reply for, each
    once and in order. *)
Lemma translate_loop_run : forall chunks i acc w,
  exists w',
    translate_loop self target_language total i chunks acc w
    = (w', fst (gather acc (map reply_of
              (serve (remote w)
                 (requests_from self target_language total i chunks)))))
    /\ actions (events w')
       = actions (events w)
         ++ map ChatCreate
              (firstn (snd (gather acc (map reply_of
                 (serve (remote w)
                    (requests_from self target_language total i chunks)))))
                 (requests_from self target_language total i chunks)).
Proof.
  induction chunks as [|chunk rest IH]; intros i acc w.
  - exists w. simpl. split; [reflexivity | now rewrite app_nil_r].
  - simpl requests_from. simpl serve. simpl translate_loop. step.
    destruct (chat_completions_create (remote w)
                (request_for self target_language total i chunk))
      as [s' [e | response]] eqn:Hcall; simpl.
    + eexists. split; [reflexivity|]. simpl.
      now rewrite actions_app, actions_print.
    + destruct (first_content response) as [e | translated_text] eqn:Hfirst;
        simpl.
      * eexists. split; [reflexivity|]. simpl.
        now rewrite actions_app, actions_print.
      * match goal with
        | |- context [translate_loop _ _ _ _ _ _ ?w1] =>
            destruct (IH (S i) (acc ++ [translated_text]) w1)
              as [w' [Hrun Hact]]
        end.
        simpl in Hrun, Hact.
        destruct (gather (acc ++ [translated_text]) _) as [res n] eqn:Hg.
        exists w'. split; [exact Hrun|].
        simpl. rewrite Hact.
        rewrite actions_print, actions_app, actions_print.
        simpl. now rewrite <- app_assoc.
Qed.
End TranslateLoop.

Section TranslateText.
Context `{Collaborators}.
Variables (self : self_t) (target_language : pystr).

Lemma requests_from_length total : forall chunks i,
  length (requests_from self target_language total i chunks) = length chunks.
Proof. induction chunks as [|c rest IH]; intros i; simpl; [|rewrite IH]; reflexivity. Qed.

Lemma serve_length : forall reqs s, length (serve s reqs) = length reqs.
Proof.
  induction reqs as [|r rest IH]; intros s; simpl; [reflexivity|].
  destruct (chat_completions_create s r) as [s' ans]. simpl. now rewrite IH.
Qed.

(** [translate_text] as a function of the service's replies. *)
Lemma translate_text_run (size : nat) (text : pystr) (w : World) :
  let reqs := requests_of self target_language (make_chunks size text) in
  let g := gather [] (map reply_of (serve (remote w) reqs)) in
  exists w',
    translate_text_sized size self text target_language w
    = (w', match fst g with
           | inl e => inl e
           | inr translated_chunks => inr (join [NL; NL] translated_chunks)
           end)
    /\ actions (events w')
       = actions (events w) ++ map ChatCreate (firstn (snd g) reqs).
Proof.
  intros reqs g. unfold translate_text_sized. step.
  match goal with
  | |- context [translate_loop _ _ ?n ?i ?cs ?acc ?w1] =>
      destruct (translate_loop_run self target_language n cs i acc w1)
        as [w' [Hrun Hact]]
  end.
  simpl in Hrun, Hact. rewrite Hrun.
  fold reqs in Hact |- *. unfold requests_of in reqs. fold reqs g in Hact |- *.
  rewrite !actions_print in Hact.
  destruct (fst g) as [e | translated_chunks]; simpl.
  - exists w'. split; [reflexivity | exact Hact].
  - eexists. split; [reflexivity|]. simpl. now rewrite actions_print.
Qed.
End TranslateText.

Section TranslateClaims.
Context `{Collaborators}.
Variables (self : self_t) (target_language : pystr).

(** C4.  When the service answers every request of [translate_text]
    with a usable completion, the result is the answers joined by one
    blank line, in the order of the chunks: piece [i] of the result is
    the answer to the request that carried chunk [i], there is one
    piece per chunk, and the requests were sent in chunk order.  Nothing
    is assumed about what the answers contain. *)
Theorem translate_text_joins_in_chunk_order
    (text : pystr) (w : World) (translated_chunks : list pystr) :
  map reply_of
      (serve (remote w)
         (requests_of self target_language (make_chunks chunk_size text)))
  = map inr translated_chunks ->
  exists w',
    translate_text self text target_language w
    = (w', inr (join [NL; NL] translated_chunks))
    /\ length translated_chunks = length (make_chunks chunk_size text)
    /\ chat_requests (events w')
       = chat_requests (events w)
         ++ requests_of self target_language (make_chunks chunk_size text).
Proof.
  intros Hreplies.
  destruct (translate_text_run self target_language chunk_size text w)
    as [w' [Hrun Hact]].
  cbv zeta in Hrun, Hact. rewrite Hreplies, gather_all in Hrun, Hact.
  cbn [fst snd] in Hrun, Hact.
  assert (Hlen : length translated_chunks
                 = length (make_chunks chunk_size text)).
  { apply (f_equal (@length _)) in Hreplies.
    rewrite !length_map, serve_length in Hreplies.
    unfold requests_of in Hreplies.
    now rewrite requests_from_length in Hreplies. }
  exists w'. split; [exact Hrun|]. split; [exact Hlen|].
  rewrite <- chat_requests_actions, Hact, chat_requests_app.
  rewrite chat_requests_actions, chat_requests_map_ChatCreate.
  rewrite firstn_all2; [reflexivity|].
  unfold requests_of. rewrite requests_from_length. lia.
Qed.

(** C6, as the code has it.  When the replies to the first chunks are
    usable and the next one is an exception [e] (raised by the service,
    or by reading a malformed completion), [translate_text] raises [e]
    itself, unchanged; the requests sent are those up to and including
    the failing one, each once, and none after it; no text is
    returned. *)
Theorem translate_text_stops_at_first_error
    (text : pystr) (w : World) (translated_chunks : list pystr) (e : exn)
    (later : list (exn + pystr)) :
  map reply_of
      (serve (remote w)
         (requests_of self target_language (make_chunks chunk_size text)))
  = map inr translated_chunks ++ inl e :: later ->
  exists w',
    translate_text self text target_language w = (w', inl e)
    /\ chat_requests (events w')
       = chat_requests (events w)
         ++ firstn (S (length translated_chunks))
              (requests_of self target_language (make_chunks chunk_size text)).
Proof.
  intros Hreplies.
  destruct (translate_text_run self target_language chunk_size text w)
    as [w' [Hrun Hact]].
  cbv zeta in Hrun, Hact. rewrite Hreplies, gather_first_error in Hrun, Hact.
  cbn [fst snd] in Hrun, Hact.
  exists w'. split; [exact Hrun|].
  rewrite <- chat_requests_actions, Hact, chat_requests_app.
  now rewrite chat_requests_actions, chat_requests_map_ChatCreate.
Qed.

(** C10.  On the empty string [translate_text] returns the empty
    string, calls no collaborator (so sends no request), and leaves the
    service as it was: all it does is print three lines. *)
Theorem translate_text_empty (w : World) :
  translate_text self [] target_language w
  = ({| events :=
          events w
          ++ [Print ([127760%N] ++ lit " Translating to " ++ target_language
                     ++ lit "...");
              Print (lit "  " ++ [10148%N] ++ lit " Split into 0 chunk(s)");
              Print ([10003%N] ++ lit " Translation complete!")];
        remote := remote w |}, inr [])
  /\ make_chunks chunk_size [] = []
  /\ chat_requests (events (fst (translate_text self [] target_language w)))
     = chat_requests (events w).
Proof.
  assert (Hchunks : make_chunks chunk_size [] = []) by (vm_compute; reflexivity).
  assert (Hrun : translate_text self [] target_language w
    = ({| events :=
            events w
            ++ [Print ([127760%N] ++ lit " Translating to " ++ target_language
                       ++ lit "...");
                Print (lit "  " ++ [10148%N] ++ lit " Split into 0 chunk(s)");
                Print ([10003%N] ++ lit " Translation complete!")];
          remote := remote w |}, inr [])).
  { unfold translate_text, translate_text_sized. rewrite Hchunks. step.
    rewrite <- !app_assoc. reflexivity. }
  split; [exact Hrun|]. split; [exact Hchunks|].
  rewrite Hrun. simpl. rewrite chat_requests_app. simpl. apply app_nil_r.
Qed.
End TranslateClaims.

(** ** The constructor *)

Section Init.
Context `{Collaborators}.

(** C7.  With no usable key in the argument and none in the
    environment ([None] or the empty string, which [not] treats alike),
    [__init__] raises the error for the missing key and has done nothing
    else: the world is as before, so no PDF was opened, no request sent
    and nothing written.  The script, which builds the translator
    first, ends the same way. *)
Theorem init_without_key (api_key_arg : option pystr) (w : World) :
  truthy_opt api_key_arg = false ->
  truthy_opt (getenv (lit "OPENAI_API_KEY")) = false ->
  init api_key_arg w = (w, inl missing_key)
  /\ main w = (w, inl missing_key).
Proof.
  intros Harg Henv.
  assert (Hnone : forall a, truthy_opt a = false ->
                            init a w = (w, inl missing_key)).
  { intros a Ha. unfold init, py_or. rewrite Ha.
    destruct (getenv (lit "OPENAI_API_KEY")) as [k|]; [|reflexivity].
    simpl in Henv. now rewrite Henv. }
  split; [now apply Hnone|].
  unfold main, bind. now rewrite (Hnone None eq_refl).
Qed.

(** The converse: a usable key builds the translator. *)
Lemma init_with_key (k : pystr) (w : World) :
  truthy k = true ->
  init (Some k) w
  = ({| events := events w ++ [Print (lit "Translator Successfully Initialized.")];
        remote := remote w |},
     inr {| api_key := k; model := lit "gpt-4o-mini" |}).
Proof.
  intros Hk. unfold init, py_or. simpl. rewrite Hk. now rewrite Hk.
Qed.
End Init.

(** ** Extraction *)

Section Extract.
Context `{Collaborators}.
Variable self : self_t.

Lemma extract_loop_run (total : nat) : forall pages page_num text w,
  extract_loop total page_num pages text w
  = ({| events := events w ++ reading_lines total page_num pages;
        remote := remote w |},
     inr (text ++ pages_text pages)).
Proof.
  induction pages as [|page_text rest IH]; intros page_num text w.
  - simpl. rewrite !app_nil_r. now destruct w.
  - simpl extract_loop. step. rewrite IH. simpl.
    now rewrite <- !app_assoc.
Qed.

(** [extract_text] returns the stripped text of the pages and raises
    only if the reader does. *)
Lemma extract_text_run (pdf_path : pystr) (pages : list pystr) (w : World) :
  PdfReader pdf_path = inr pages ->
  extract_text self pdf_path w
  = ({| events :=
          events w
          ++ [Print (lit "Extracting text from PDF: " ++ pdf_path);
              OpenPdf pdf_path]
          ++ reading_lines (length pages) 1 pages;
        remote := remote w |},
     inr (strip (pages_text pages))).
Proof.
  intros Hread. unfold extract_text. step. rewrite Hread.
  rewrite extract_loop_run. simpl. now rewrite <- !app_assoc.
Qed.

(** C5, as the code has it.  When the pages hold no text,
    [extract_text] returns the empty string normally, and it is
    [translate_pdf] that raises, right after extraction: the last thing
    it did is print the character count, so [translate_text] and
    [create_pdf] were not entered, and the service is untouched. *)
Theorem translate_pdf_rejects_empty_text
    (input_path output_path target_language : pystr)
    (pages : list pystr) (w : World) :
  PdfReader input_path = inr pages ->
  strip (pages_text pages) = [] ->
  snd (extract_text self input_path w) = inr []
  /\ translate_pdf self input_path output_path target_language w
     = ({| events :=
             events w
             ++ [Print (repeat 61%N 60);
                 Print (lit "PDF TRANSLATION STARTING");
                 Print (repeat 61%N 60);
                 Print (lit "Extracting text from PDF: " ++ input_path);
                 OpenPdf input_path]
             ++ reading_lines (length pages) 1 pages
             ++ [Print ([NL; 10003%N] ++ lit " Extracted 0 characters" ++ [NL])];
           remote := remote w |},
        inl (ValueError (lit "No text found in PDF!"))).
Proof.
  intros Hread Hempty. split.
  - rewrite (extract_text_run _ w Hread). simpl. now rewrite Hempty.
  - unfold translate_pdf.
    unfold bind at 1 2 3 4. unfold print at 1 2 3. unfold emit at 1 2 3.
    cbn [events remote].
    rewrite (extract_text_run _ _ Hread). rewrite Hempty.
    cbn [events remote]. unfold bind, print, emit, raise.
    cbn [events remote negb truthy length].
    repeat (rewrite <- app_assoc; cbn [app]). reflexivity.
Qed.
End Extract.

(** ** The pipeline when translation fails *)

Lemma actions_reading_lines (total : nat) : forall pages page_num,
  actions (reading_lines total page_num pages) = [].
Proof. induction pages as [|p rest IH]; intros n; simpl; auto. Qed.

Section Pipeline.
Context `{Collaborators}.
Variable self : self_t.

(** X14.  When the PDF has text and a translation request fails,
    [translate_pdf] raises the same exception; besides printing, it has
    opened the PDF and sent the requests up to the failing one, and has
    written nothing. *)
Lemma translate_pdf_stops_at_translation_error
    (input_path output_path target_language : pystr) (pages : list pystr)
    (w : World) (translated_chunks : list pystr) (e : exn)
    (later : list (exn + pystr)) :
  PdfReader input_path = inr pages ->
  truthy (strip (pages_text pages)) = true ->
  map reply_of
      (serve (remote w)
         (requests_of self target_language
            (make_chunks chunk_size (strip (pages_text pages)))))
  = map inr translated_chunks ++ inl e :: later ->
  exists w',
    translate_pdf self input_path output_path target_language w = (w', inl e)
    /\ actions (events w')
       = actions (events w)
         ++ OpenPdf input_path
            :: map ChatCreate
                 (firstn (S (length translated_chunks))
                    (requests_of self target_language
                       (make_chunks chunk_size (strip (pages_text pages))))).
Proof.
  intros Hread Htext Hreplies.
  unfold translate_pdf.
  unfold bind at 1 2 3 4. unfold print at 1 2 3. unfold emit at 1 2 3.
  cbn [events remote].
  rewrite (extract_text_run self _ _ Hread). rewrite Htext.
  cbn [events remote negb]. unfold bind at 1. unfold print at 1.
  unfold emit at 1. cbn [events remote]. unfold bind at 1.
  match goal with
  | |- context [translate_text self ?t target_language ?w1] =>
      destruct (translate_text_run self target_language chunk_size t w1)
        as [w' [Hrun Hact]]
  end.
  cbv zeta in Hrun, Hact. cbn [events remote] in Hrun, Hact.
  rewrite Hreplies, gather_first_error in Hrun, Hact.
  cbn [fst snd] in Hrun, Hact.
  unfold translate_text. rewrite Hrun.
  exists w'. split; [reflexivity|].
  rewrite Hact. rewrite !actions_app, actions_reading_lines.
  cbn [actions filter is_print negb app]. rewrite !app_nil_r.
  now rewrite <- app_assoc.
Qed.
End Pipeline.

(** ** Rendering *)

Lemma replace_app (old : char) (new a b : pystr) :
  replace old new (a ++ b) = replace old new a ++ replace old new b.
Proof. apply flat_map_app. Qed.

Lemma clean_para_app (a b : pystr) :
  clean_para (a ++ b) = clean_para a ++ clean_para b.
Proof. unfold clean_para. now rewrite !replace_app. Qed.

Lemma clean_para_char (c : char) : clean_para [c] = plain_ascii c.
Proof.
  unfold clean_para, plain_ascii, replace.
  cbn [flat_map app].
  destruct (N.eqb_spec c 8216) as [->|H1]; [reflexivity|].
  cbn [flat_map app].
  destruct (N.eqb_spec c 8217) as [->|H2]; [reflexivity|].
  cbn [flat_map app].
  destruct (N.eqb_spec c 8220) as [->|H3]; [reflexivity|].
  cbn [flat_map app].
  destruct (N.eqb_spec c 8221) as [->|H4]; [reflexivity|].
  cbn [flat_map app].
  destruct (N.eqb_spec c 8212) as [->|H5]; [reflexivity|].
  cbn [flat_map app].
  destruct (N.eqb_spec c 8230) as [->|H6]; reflexivity.
Qed.

(** The chain of [replace] calls is the substitution table applied to
    each character. *)
Lemma clean_para_table (para : pystr) :
  clean_para para = flat_map plain_ascii para.
Proof.
  induction para as [|c rest IH]; [reflexivity|].
  change (c :: rest) with ([c] ++ rest).
  rewrite clean_para_app, clean_para_char, IH. reflexivity.
Qed.

Lemma plain_ascii_plain (c x : char) :
  In c smart_punctuation -> ~ In c (plain_ascii x).
Proof.
  unfold smart_punctuation, plain_ascii. intros Hc Hin.
  destruct (N.eqb_spec x 8216); [simpl in *; intuition (subst; discriminate)|].
  destruct (N.eqb_spec x 8217); [simpl in *; intuition (subst; discriminate)|].
  destruct (N.eqb_spec x 8220); [simpl in *; intuition (subst; discriminate)|].
  destruct (N.eqb_spec x 8221); [simpl in *; intuition (subst; discriminate)|].
  destruct (N.eqb_spec x 8212); [simpl in *; intuition (subst; discriminate)|].
  destruct (N.eqb_spec x 8230); [simpl in *; intuition (subst; discriminate)|].
  simpl in *. intuition (subst; congruence).
Qed.

(** No curly quote, em-dash or ellipsis is left in a cleaned
    paragraph. *)
Lemma clean_para_plain (para : pystr) (c : char) :
  In c smart_punctuation -> ~ In c (clean_para para).
Proof.
  intros Hc Hin. rewrite clean_para_table in Hin.
  apply in_flat_map in Hin. destruct Hin as [x [_ Hx]].
  exact (plain_ascii_plain x Hc Hx).
Qed.

Lemma written_raised_length (outs : list (option exn)) :
  written outs + raised outs = length outs.
Proof.
  unfold written, raised.
  induction outs as [|[e|] outs IH]; simpl; lia.
Qed.

Section Render.
Context `{Collaborators}.

Lemma render_run_length : forall texts doc,
  length (fst (render_run doc texts)) = length texts.
Proof.
  induction texts as [|t rest IH]; intros doc; simpl; [reflexivity|].
  destruct (multi_cell doc 0 6 t) as [doc' [e|]].
  - specialize (IH doc'). destruct (render_run doc' rest). simpl in *. lia.
  - specialize (IH (ln doc' 4)). destruct (render_run (ln doc' 4) rest).
    simpl in *. lia.
Qed.

(** The paragraph loop tries every paragraph that is not blank, in
    order, whatever happened to the ones before; its counters are the
    numbers of calls of [multi_cell] that returned and that raised. *)
Lemma render_loop_run : forall paragraphs st w,
  exists w',
    render_loop paragraphs st w
    = (w', inr {| pdf := snd (render_run (pdf st)
                           (map clean_para (filter nonblank paragraphs)));
                  lines_added :=
                    lines_added st
                    + written (fst (render_run (pdf st)
                         (map clean_para (filter nonblank paragraphs))));
                  lines_skipped :=
                    lines_skipped st
                    + raised (fst (render_run (pdf st)
                         (map clean_para (filter nonblank paragraphs)))) |})
    /\ actions (events w')
       = actions (events w)
         ++ map (MultiCell 0 6) (map clean_para (filter nonblank paragraphs))
    /\ remote w' = remote w.
Proof.
  induction paragraphs as [|para rest IH]; intros st w.
  - exists w. simpl. unfold ret, written, raised. simpl.
    rewrite !Nat.add_0_r, app_nil_r. destruct st. auto.
  - simpl render_loop. simpl filter. unfold nonblank at 1 4 7 10.
    destruct (truthy (strip para)) eqn:Hblank; simpl negb; cbv iota.
    + step. simpl map. simpl render_run.
      destruct (multi_cell (pdf st) 0 6 (clean_para para))
        as [doc' [e|]] eqn:Hcell.
      * step.
        match goal with
        | |- context [render_loop rest ?st1 ?w1] =>
            destruct (IH st1 w1) as [w' [Hrun [Hact Hrem]]]
        end.
        cbn [pdf lines_added lines_skipped events remote] in Hrun, Hact, Hrem.
        destruct (render_run doc' _) as [outs final].
        exists w'. cbn [fst snd] in *. rewrite Hrun. split; [|split].
        -- unfold written, raised. simpl. unfold written, raised.
           do 2 f_equal. f_equal; lia.
        -- rewrite Hact, actions_print, actions_app. simpl.
           now rewrite <- app_assoc.
        -- exact Hrem.
      * match goal with
        | |- context [render_loop rest ?st1 ?w1] =>
            destruct (IH st1 w1) as [w' [Hrun [Hact Hrem]]]
        end.
        cbn [pdf lines_added lines_skipped events remote] in Hrun, Hact, Hrem.
        destruct (render_run (ln doc' 4) _) as [outs final].
        exists w'. cbn [fst snd] in *. rewrite Hrun. split; [|split].
        -- unfold written, raised. simpl. unfold written, raised.
           do 2 f_equal. f_equal; lia.
        -- rewrite Hact, actions_app. simpl. now rewrite <- app_assoc.
        -- exact Hrem.
    + apply IH.
Qed.
End Render.

Section CreatePdf.
Context `{Collaborators}.
Variable self : self_t.

(** [create_pdf] as a function of what [multi_cell] and [output] do. *)
Lemma create_pdf_run (text output_path : pystr) (w : World) :
  let texts := map clean_para (paragraphs_of text) in
  let r := render_run fresh_pdf texts in
  exists w',
    create_pdf self text output_path w
    = (w', match output (snd r) output_path with
           | Some e => inl e
           | None => inr tt
           end)
    /\ actions (events w')
       = actions (events w) ++ map (MultiCell 0 6) texts ++ [Output output_path]
    /\ (output (snd r) output_path = None ->
        exists before,
          events w'
          = before ++ report_lines (written (fst r)) (raised (fst r))).
Proof.
  intros texts r. unfold create_pdf.
  unfold bind at 1. unfold print at 1. unfold emit at 1. cbn [events remote].
  unfold bind at 1.
  match goal with
  | |- context [render_loop ?ps ?st1 ?w1] =>
      destruct (render_loop_run ps st1 w1) as [w1' [Hrun [Hact _]]]
  end.
  cbn [pdf lines_added lines_skipped events remote] in Hrun, Hact.
  rewrite Hrun. rewrite actions_print in Hact.
  fold (paragraphs_of text) in Hact |- *. fold fresh_pdf.
  fold texts in Hact |- *. fold r.
  unfold call_output, report_lines.
  cbn [pdf lines_added lines_skipped Nat.add].
  destruct (output (snd r) output_path) as [e|] eqn:Hout.
  - step. eexists. split; [reflexivity|]. split; [|discriminate].
    simpl. rewrite actions_app, Hact. simpl. now rewrite <- app_assoc.
  - destruct (raised (fst r)) as [|skipped] eqn:Hskipped.
    + step. eexists. split; [reflexivity|]. split.
      * simpl. rewrite !actions_print, actions_app, Hact. simpl.
        now rewrite <- app_assoc.
      * intros _. exists (events w1' ++ [Output output_path]).
        simpl. now rewrite <- !app_assoc.
    + step. eexists. split; [reflexivity|]. split.
      * simpl. rewrite !actions_print, actions_app, Hact. simpl.
        now rewrite <- app_assoc.
      * intros _. exists (events w1' ++ [Output output_path]).
        simpl. now rewrite <- !app_assoc.
Qed.

(** C8.  Each curly quote, em-dash and ellipsis of a paragraph is
    replaced by its ASCII substitute, and none is left; the text handed
    to [multi_cell] is the cleaned paragraph, for every paragraph that
    is not blank; and [create_pdf] raises nothing but what the final
    [output] raises, whatever [multi_cell] does with a paragraph. *)
Theorem create_pdf_writes_plain_ascii (text output_path : pystr) (w : World) :
  (forall para, clean_para para = flat_map plain_ascii para)
  /\ (forall para c, In c smart_punctuation -> ~ In c (clean_para para))
  /\ actions (events (fst (create_pdf self text output_path w)))
     = actions (events w)
       ++ map (MultiCell 0 6) (map (flat_map plain_ascii) (paragraphs_of text))
       ++ [Output output_path]
  /\ snd (create_pdf self text output_path w)
     = match output (snd (render_run fresh_pdf
                            (map clean_para (paragraphs_of text))))
                    output_path with
       | Some e => inl e
       | None => inr tt
       end.
Proof.
  split; [exact clean_para_table|]. split; [exact clean_para_plain|].
  destruct (create_pdf_run text output_path w) as [w' [Hrun [Hact _]]].
  cbv zeta in Hrun, Hact. rewrite Hrun. cbn [fst snd]. split; [|reflexivity].
  rewrite Hact. do 2 f_equal. f_equal. apply map_ext. exact clean_para_table.
Qed.

(** C9.  When [multi_cell] raises on at least one paragraph and the
    final [output] succeeds, [create_pdf] returns normally; it has
    called [multi_cell] on every paragraph that is not blank, in order,
    the failing ones included; each of these was either written or
    skipped; and the last lines it prints give the number written and
    the number skipped. *)
Theorem create_pdf_skips_and_reports (text output_path : pystr) (w : World) :
  let texts := map clean_para (paragraphs_of text) in
  let outcomes := fst (render_run fresh_pdf texts) in
  1 <= raised outcomes ->
  output (snd (render_run fresh_pdf texts)) output_path = None ->
  exists w' before,
    create_pdf self text output_path w = (w', inr tt)
    /\ actions (events w')
       = actions (events w) ++ map (MultiCell 0 6) texts ++ [Output output_path]
    /\ written outcomes + raised outcomes = length (paragraphs_of text)
    /\ events w'
       = before
         ++ [Print ([10003%N] ++ lit " PDF created successfully!");
             Print (lit "  " ++ [10148%N] ++ lit " Paragraphs added: "
                    ++ str_of_nat (written outcomes));
             Print (lit "  " ++ [9888%N] ++ lit " Paragraphs skipped: "
                    ++ str_of_nat (raised outcomes))].
Proof.
  intros texts outcomes Hraised Hout.
  destruct (create_pdf_run text output_path w) as [w' [Hrun [Hact Hrep]]].
  cbv zeta in Hrun, Hact, Hrep. fold texts in Hrun, Hact, Hrep.
  fold outcomes in Hrep. rewrite Hout in Hrun.
  destruct (Hrep Hout) as [before Hev].
  exists w', before. split; [exact Hrun|]. split; [exact Hact|]. split.
  - rewrite written_raised_length. unfold outcomes.
    rewrite render_run_length. unfold texts. apply length_map.
  - rewrite Hev. unfold report_lines.
    destruct (Nat.ltb_spec 0 (raised outcomes)); [reflexivity | lia].
Qed.
End CreatePdf.


(** ** The chunk list on concrete texts

    The second loop of [translate_text] appends the words of the text,
    joined by spaces, to the character windows.  The statements below run
    the code on texts where this shows. *)

Lemma demo_echo_replies (reqs : list Request) :
  map reply_of (@serve Demo.with_key [] reqs) = map inr (map Demo.echo reqs).
Proof. induction reqs as [|r rest IH]; simpl; [|rewrite IH]; reflexivity. Qed.

(** When the service answers every request, the requests sent are those
    for the whole chunk list, in order. *)
Lemma demo_echo_requests (text : pystr) :
  chat_requests (events (fst (Demo.translate [] text)))
  = requests_of Demo.me Demo.spanish (make_chunks chunk_size text).
Proof.
  unfold Demo.translate.
  destruct (@translate_text_run Demo.with_key Demo.me Demo.spanish chunk_size
              text (Demo.start Demo.with_key []))
    as [w' [Hrun Hact]].
  cbv zeta in Hrun, Hact. unfold translate_text. rewrite Hrun. cbn [fst].
  rewrite <- chat_requests_actions, Hact.
  cbn [Demo.start remote events actions filter app].
  rewrite demo_echo_replies, gather_all. cbn [snd].
  rewrite chat_requests_map_ChatCreate, length_map. apply firstn_all.
Qed.

(** C1.  On the one-letter text [a] the chunk list is [a] twice: the
    character window and then the word.  Concatenated, the chunks give
    [aa], not the text; both chunks are sent to the service. *)
Theorem chunks_of_one_letter_repeat_it :
  make_chunks chunk_size (lit "a") = [lit "a"; lit "a"]
  /\ concat (make_chunks chunk_size (lit "a")) = lit "aa"
  /\ concat (make_chunks chunk_size (lit "a")) <> lit "a"
  /\ chat_requests (events (fst (Demo.translate [] (lit "a"))))
     = requests_of Demo.me Demo.spanish [lit "a"; lit "a"].
Proof.
  split; [vm_compute; reflexivity|].
  split; [vm_compute; reflexivity|].
  split; [vm_compute; discriminate|].
  vm_compute. reflexivity.
Qed.

(** C2.  On a text of 15001 letters [a] the chunk list holds three
    chunks, of 15000, 1 and 15001 characters: the last one, built by the
    word loop, is longer than the chunk size, and the whole list is sent
    to the service. *)
Theorem word_chunk_exceeds_chunk_size :
  Demo.lengths (make_chunks chunk_size (repeat 97%N 15001))
  = [15000; 1; 15001]%N
  /\ chat_requests (events (fst (Demo.translate [] (repeat 97%N 15001))))
     = requests_of Demo.me Demo.spanish
         (make_chunks chunk_size (repeat 97%N 15001)).
Proof.
  split; [vm_compute; reflexivity | apply demo_echo_requests].
Qed.

(** C3.  On a text of 32000 letters [a] the chunk list holds four
    chunks, of 15000, 15000, 2000 and 32000 characters, and four requests
    are sent, one per chunk and in the order of the list. *)
Theorem chunks_of_32000_letters :
  Demo.lengths (make_chunks chunk_size (repeat 97%N 32000))
  = [15000; 15000; 2000; 32000]%N
  /\ chat_requests (events (fst (Demo.translate [] (repeat 97%N 32000))))
     = requests_of Demo.me Demo.spanish
         (make_chunks chunk_size (repeat 97%N 32000))
  /\ length (chat_requests
               (events (fst (Demo.translate [] (repeat 97%N 32000))))) = 4.
Proof.
  split; [vm_compute; reflexivity|].
  split; [apply demo_echo_requests | vm_compute; reflexivity].
Qed.

(** On a text of 32000 spaces, which has no word, the chunk list is the
    three character windows alone. *)
Example chunks_of_32000_spaces :
  Demo.lengths (make_chunks chunk_size (repeat SP 32000))
  = [15000; 15000; 2000]%N.
Proof. vm_compute. reflexivity. Qed.

(** ** Runs that exercise the statements above *)

Section Runs.
#[local] Existing Instance Demo.with_key.

Lemma translate_text_joins_in_chunk_order_witness :
  map reply_of
      (serve (remote (Demo.start Demo.with_key Demo.both_answered))
         (requests_of Demo.me Demo.spanish (make_chunks chunk_size (lit "a"))))
  = map inr [Demo.uno; Demo.dos]
  /\ exists w',
       translate_text Demo.me (lit "a") Demo.spanish
         (Demo.start Demo.with_key Demo.both_answered)
       = (w', inr (join [NL; NL] [Demo.uno; Demo.dos]))
       /\ length [Demo.uno; Demo.dos]
          = length (make_chunks chunk_size (lit "a"))
       /\ chat_requests (events w')
          = chat_requests
              (events (Demo.start Demo.with_key Demo.both_answered))
            ++ requests_of Demo.me Demo.spanish
                 (make_chunks chunk_size (lit "a")).
Proof.
  split; [vm_compute; reflexivity|].
  apply (translate_text_joins_in_chunk_order Demo.me Demo.spanish (lit "a")
           (Demo.start Demo.with_key Demo.both_answered)
           [Demo.uno; Demo.dos]).
  vm_compute. reflexivity.
Defined.

Lemma translate_text_stops_at_first_error_witness :
  map reply_of
      (serve (remote (Demo.start Demo.with_key Demo.second_fails))
         (requests_of Demo.me Demo.spanish (make_chunks chunk_size (lit "a"))))
  = map inr [Demo.uno] ++ inl Demo.connection_error :: []
  /\ exists w',
       translate_text Demo.me (lit "a") Demo.spanish
         (Demo.start Demo.with_key Demo.second_fails)
       = (w', inl Demo.connection_error)
       /\ chat_requests (events w')
          = chat_requests
              (events (Demo.start Demo.with_key Demo.second_fails))
            ++ firstn (S (length [Demo.uno]))
                 (requests_of Demo.me Demo.spanish
                    (make_chunks chunk_size (lit "a"))).
Proof.
  split; [vm_compute; reflexivity|].
  apply (translate_text_stops_at_first_error Demo.me Demo.spanish (lit "a")
           (Demo.start Demo.with_key Demo.second_fails)
           [Demo.uno] Demo.connection_error []).
  vm_compute. reflexivity.
Defined.

(** C6, the part the code does not do.  The failing chunk is the one
    of the last request sent, so its index is the number of requests
    sent.  The same text fails at chunk 1 under one script and at chunk
    2 under another with the very same exception: no reading of the
    exception gives the index. *)
Lemma translation_error_does_not_name_chunk :
  ~ exists index_of : exn -> nat,
      forall script w' e,
        Demo.translate script (lit "a") = (w', inl e) ->
        index_of e = length (chat_requests (events w')).
Proof.
  intros [index_of Hidx].
  pose proof (Hidx Demo.first_fails) as H1.
  pose proof (Hidx Demo.second_fails) as H2.
  destruct (Demo.translate Demo.first_fails (lit "a")) as [w1 r1] eqn:E1.
  destruct (Demo.translate Demo.second_fails (lit "a")) as [w2 r2] eqn:E2.
  vm_compute in E1, E2.
  injection E1 as <- <-. injection E2 as <- <-.
  specialize (H1 _ _ eq_refl). specialize (H2 _ _ eq_refl).
  vm_compute in H1, H2. rewrite H1 in H2. discriminate.
Qed.

(** C5, the part the code does not do.  A PDF of two pages without
    text: extraction yields the empty string, and [extract_text]
    returns it; it does not raise. *)
Lemma extract_text_returns_empty_text :
  PdfReader (lit "scan.pdf") = inr [[]; lit "  "]
  /\ (exists w',
        extract_text Demo.me (lit "scan.pdf") (Demo.start Demo.with_key [])
        = (w', inr []))
  /\ forall e,
       snd (extract_text Demo.me (lit "scan.pdf") (Demo.start Demo.with_key []))
       <> inl e.
Proof.
  split; [reflexivity|]. split.
  - eexists. vm_compute. reflexivity.
  - intros e. vm_compute. discriminate.
Qed.

Lemma translate_pdf_rejects_empty_text_witness :
  PdfReader (lit "scan.pdf") = inr [[]; lit "  "]
  /\ strip (pages_text [[]; lit "  "]) = []
  /\ snd (extract_text Demo.me (lit "scan.pdf") (Demo.start Demo.with_key []))
     = inr []
  /\ translate_pdf Demo.me (lit "scan.pdf") (lit "out.pdf") Demo.spanish
       (Demo.start Demo.with_key [])
     = ({| events :=
             events (Demo.start Demo.with_key [])
             ++ [Print (repeat 61%N 60);
                 Print (lit "PDF TRANSLATION STARTING");
                 Print (repeat 61%N 60);
                 Print (lit "Extracting text from PDF: " ++ lit "scan.pdf");
                 OpenPdf (lit "scan.pdf")]
             ++ reading_lines (length [[]; lit "  "]) 1 [[]; lit "  "]
             ++ [Print ([NL; 10003%N] ++ lit " Extracted 0 characters" ++ [NL])];
           remote := remote (Demo.start Demo.with_key []) |},
        inl (ValueError (lit "No text found in PDF!"))).
Proof.
  split; [reflexivity|]. split; [reflexivity|].
  apply (@translate_pdf_rejects_empty_text Demo.with_key Demo.me
           (lit "scan.pdf") (lit "out.pdf") Demo.spanish [[]; lit "  "]
           (Demo.start Demo.with_key [])); reflexivity.
Defined.

Lemma create_pdf_skips_and_reports_witness :
  1 <= raised (fst (render_run fresh_pdf
                      (map clean_para (paragraphs_of Demo.three_paragraphs))))
  /\ output (snd (render_run fresh_pdf
                    (map clean_para (paragraphs_of Demo.three_paragraphs))))
            (lit "out.pdf") = None
  /\ exists w' before,
       create_pdf Demo.me Demo.three_paragraphs (lit "out.pdf")
         (Demo.start Demo.with_key [])
       = (w', inr tt)
       /\ actions (events w')
          = actions (events (Demo.start Demo.with_key []))
            ++ map (MultiCell 0 6)
                 (map clean_para (paragraphs_of Demo.three_paragraphs))
            ++ [Output (lit "out.pdf")]
       /\ written (fst (render_run fresh_pdf
                          (map clean_para (paragraphs_of Demo.three_paragraphs))))
          + raised (fst (render_run fresh_pdf
                           (map clean_para (paragraphs_of Demo.three_paragraphs))))
          = length (paragraphs_of Demo.three_paragraphs)
       /\ events w'
          = before
            ++ [Print ([10003%N] ++ lit " PDF created successfully!");
                Print (lit "  " ++ [10148%N] ++ lit " Paragraphs added: "
                       ++ str_of_nat
                            (written (fst (render_run fresh_pdf
                               (map clean_para
                                  (paragraphs_of Demo.three_paragraphs))))));
                Print (lit "  " ++ [9888%N] ++ lit " Paragraphs skipped: "
                       ++ str_of_nat
                            (raised (fst (render_run fresh_pdf
                               (map clean_para
                                  (paragraphs_of Demo.three_paragraphs))))))].
Proof.
  split; [vm_compute; lia|]. split; [reflexivity|].
  apply (create_pdf_skips_and_reports Demo.me Demo.three_paragraphs
           (lit "out.pdf") (Demo.start Demo.with_key []));
    [vm_compute; lia | reflexivity].
Defined.

(** The same run, evaluated: the three paragraphs are tried in order,
    two are written and one is skipped. *)
Example create_pdf_three_paragraphs :
  actions (events (fst (create_pdf Demo.me Demo.three_paragraphs (lit "out.pdf")
                          (Demo.start Demo.with_key []))))
  = [MultiCell 0 6 (lit "ok"); MultiCell 0 6 [8364%N];
     MultiCell 0 6 (lit "fine"); Output (lit "out.pdf")]
  /\ fst (render_run fresh_pdf
            (map clean_para (paragraphs_of Demo.three_paragraphs)))
     = [None;
        Some (LibraryError (lit "FPDFUnicodeEncodingException")
                           (lit "Character outside the range of the font"));
        None].
Proof. split; vm_compute; reflexivity. Qed.
End Runs.

Lemma init_without_key_witness :
  @truthy_opt None = false
  /\ truthy_opt (@getenv Demo.without_key (lit "OPENAI_API_KEY")) = false
  /\ @init Demo.without_key None (Demo.start Demo.without_key [])
     = (Demo.start Demo.without_key [], inl missing_key)
  /\ @main Demo.without_key (Demo.start Demo.without_key [])
     = (Demo.start Demo.without_key [], inl missing_key).
Proof.
  split; [reflexivity|]. split; [reflexivity|].
  apply (@init_without_key Demo.without_key None
           (Demo.start Demo.without_key [])); reflexivity.
Defined.

(** The handler of [app.py] on the same PDF without text: nothing
    raises, and the empty translation is rendered and written. *)
Example app_renders_empty_text :
  @App.on_translate Demo.with_key (lit "scan.pdf") (lit "out.pdf") Demo.spanish
    (Demo.start Demo.with_key [])
  = (@mkWorld Demo.with_key
          [Print (lit "Translator Successfully Initialized.");
           Print (lit "Extracting text from PDF: scan.pdf");
           OpenPdf (lit "scan.pdf");
           Print (lit " Reading page: 1/2");
           Print (lit " Reading page: 2/2");
           Print ([127760%N] ++ lit " Translating to Spanish...");
           Print (lit "  " ++ [10148%N] ++ lit " Split into 0 chunk(s)");
           Print ([10003%N] ++ lit " Translation complete!");
           Print ([128196%N] ++ lit " Creating PDF: out.pdf");
           Output (lit "out.pdf");
           Print ([10003%N] ++ lit " PDF created successfully!");
           Print (lit "  " ++ [10148%N] ++ lit " Paragraphs added: 0")]
          ([] : list (exn + Response)),
     inr []).
Proof. vm_compute. reflexivity. Qed.

(** * Further properties of the code *)

(** ** Whitespace stripping *)

Lemma dropwhile_idempotent (p : char -> bool) (s : pystr) :
  dropwhile p (dropwhile p s) = dropwhile p s.
Proof.
  induction s as [|c s IH]; [reflexivity|]. simpl.
  destruct (p c) eqn:Hc; [exact IH|]. simpl. now rewrite Hc.
Qed.

Lemma dropwhile_head (p : char -> bool) (s : pystr) :
  dropwhile p s = []
  \/ exists c rest, dropwhile p s = c :: rest /\ p c = false.
Proof.
  induction s as [|c s IH]; [now left|]. simpl.
  destruct (p c) eqn:Hc; [exact IH|]. right. eauto.
Qed.

Lemma dropwhile_app (p : char -> bool) (a b : pystr) :
  dropwhile p (a ++ b)
  = match dropwhile p a with
    | [] => dropwhile p b
    | _ => dropwhile p a ++ b
    end.
Proof.
  induction a as [|c a IH]; simpl.
  - now destruct (dropwhile p b).
  - destruct (p c); [exact IH | reflexivity].
Qed.

Lemma dropwhile_snoc_kept (p : char -> bool) (l : pystr) (c : char) :
  p c = false -> dropwhile p (l ++ [c]) = dropwhile p l ++ [c].
Proof.
  intros Hc. rewrite dropwhile_app.
  destruct (dropwhile p l) eqn:Hl; [|reflexivity].
  simpl. now rewrite Hc.
Qed.

Lemma rstrip_idempotent (s : pystr) : rstrip (rstrip s) = rstrip s.
Proof.
  unfold rstrip. now rewrite rev_involutive, dropwhile_idempotent.
Qed.

(** [rstrip] keeps a first character that is not whitespace. *)
Lemma rstrip_keeps_head (c : char) (rest : pystr) :
  isspace c = false ->
  rstrip (c :: rest) = c :: rstrip rest.
Proof.
  intros Hc. unfold rstrip. simpl rev.
  rewrite (@dropwhile_snoc_kept isspace (rev rest) c Hc).
  now rewrite rev_app_distr.
Qed.

(** Stripping twice is stripping once. *)
Lemma strip_idempotent (s : pystr) : strip (strip s) = strip s.
Proof.
  unfold strip, lstrip.
  destruct (dropwhile_head isspace s) as [Hnil | [c [rest [Hcons Hc]]]].
  - rewrite Hnil. reflexivity.
  - rewrite Hcons. rewrite (@rstrip_keeps_head c rest Hc).
    simpl dropwhile. rewrite Hc.
    rewrite <- (@rstrip_keeps_head c rest Hc). apply rstrip_idempotent.
Qed.

(** Whitespace added at the end does not change the stripped text. *)
Lemma strip_trailing_blank_line (s : pystr) :
  strip (s ++ [NL; NL]) = strip s.
Proof.
  unfold strip, lstrip. rewrite dropwhile_app.
  destruct (dropwhile isspace s) as [|c rest] eqn:Hs.
  - reflexivity.
  - unfold rstrip. rewrite rev_app_distr. reflexivity.
Qed.

Lemma pages_text_join (page : pystr) (rest : list pystr) :
  pages_text (page :: rest) = join [NL; NL] (page :: rest) ++ [NL; NL].
Proof.
  revert page. induction rest as [|next rest IH]; intros page.
  - simpl. now rewrite app_nil_r.
  - change (pages_text (page :: next :: rest))
      with ((page ++ [NL; NL]) ++ pages_text (next :: rest)).
    rewrite IH.
    change (join [NL; NL] (page :: next :: rest))
      with (page ++ [NL; NL] ++ join [NL; NL] (next :: rest)).
    now rewrite <- !app_assoc.
Qed.

(** The text [extract_text] builds, stripped, is the page texts joined by
    blank lines, stripped. *)
Lemma strip_pages_text (pages : list pystr) :
  strip (pages_text pages) = strip (join [NL; NL] pages).
Proof.
  destruct pages as [|page rest]; [reflexivity|].
  rewrite pages_text_join. apply strip_trailing_blank_line.
Qed.

(** ** More on extraction *)

Lemma reading_lines_length (total : nat) : forall pages page_num,
  length (reading_lines total page_num pages) = length pages.
Proof.
  induction pages as [|page rest IH]; intros n; simpl;
    [reflexivity | now rewrite IH].
Qed.

Section ExtractMore.
Context `{Collaborators}.
Variable self : self_t.

(** X1.  When the reader opens the PDF, [extract_text] returns the page
    texts joined by one blank line, stripped of whitespace at both ends
    (the blank line after the last page is gone).  It prints its header
    and one line per page, opens the PDF, and does nothing else; the
    service is untouched. *)
Theorem extract_text_joins_pages
    (pdf_path : pystr) (pages : list pystr) (w : World) :
  PdfReader pdf_path = inr pages ->
  extract_text self pdf_path w
  = ({| events :=
          events w
          ++ [Print (lit "Extracting text from PDF: " ++ pdf_path);
              OpenPdf pdf_path]
          ++ reading_lines (length pages) 1 pages;
        remote := remote w |},
     inr (strip (join [NL; NL] pages)))
  /\ length (reading_lines (length pages) 1 pages) = length pages.
Proof.
  intros Hread. split.
  - rewrite (@extract_text_run _ self pdf_path pages w Hread).
    now rewrite strip_pages_text.
  - apply reading_lines_length.
Qed.

(** X2.  Whatever [extract_text] returns has no whitespace at either
    end: stripping it again changes nothing. *)
Theorem extract_text_result_is_stripped
    (pdf_path : pystr) (w w' : World) (text : pystr) :
  extract_text self pdf_path w = (w', inr text) ->
  strip text = text.
Proof.
  intros Hrun. destruct (PdfReader pdf_path) as [e | pages] eqn:Hread.
  - unfold extract_text in Hrun. revert Hrun. step. rewrite Hread.
    discriminate.
  - rewrite (@extract_text_run _ self pdf_path pages w Hread) in Hrun.
    injection Hrun as _ <-. apply strip_idempotent.
Qed.

(** X3.  When the reader raises on the PDF, [extract_text] raises the
    same exception after printing its header, and so does
    [translate_pdf]: no page is read, no request is sent, nothing is
    rendered or written. *)
Theorem reader_error_propagates
    (input_path output_path target_language : pystr) (e : exn) (w : World) :
  PdfReader input_path = inl e ->
  extract_text self input_path w
  = ({| events :=
          events w
          ++ [Print (lit "Extracting text from PDF: " ++ input_path);
              OpenPdf input_path];
        remote := remote w |},
     inl e)
  /\ translate_pdf self input_path output_path target_language w
     = ({| events :=
             events w
             ++ [Print (repeat 61%N 60);
                 Print (lit "PDF TRANSLATION STARTING");
                 Print (repeat 61%N 60);
                 Print (lit "Extracting text from PDF: " ++ input_path);
                 OpenPdf input_path];
           remote := remote w |},
        inl e).
Proof.
  intros Hread.
  assert (Hextract : forall w0,
    extract_text self input_path w0
    = ({| events :=
            events w0
            ++ [Print (lit "Extracting text from PDF: " ++ input_path);
                OpenPdf input_path];
          remote := remote w0 |},
       inl e)).
  { intros w0. unfold extract_text. step. rewrite Hread.
    now rewrite <- app_assoc. }
  split; [apply Hextract|].
  unfold translate_pdf.
  unfold bind at 1 2 3 4. unfold print at 1 2 3. unfold emit at 1 2 3.
  cbn [events remote]. rewrite Hextract. cbn [events remote].
  repeat (rewrite <- app_assoc; cbn [app]). reflexivity.
Qed.
End ExtractMore.

(** ** More on the chunk list *)

Lemma chunk_size_positive : 1 <= chunk_size.
Proof. apply Nat.leb_le. vm_compute. reflexivity. Qed.

Lemma range0_offsets_inside (stop step i : nat) :
  1 <= step -> In i (range0 stop step) -> i < stop.
Proof.
  intros Hstep Hin. unfold range0 in Hin. apply in_map_iff in Hin.
  destruct Hin as [k [<- Hk]]. apply in_seq in Hk.
  pose proof (Nat.Div0.mul_div_le (stop + step - 1) step) as Hq.
  nia.
Qed.

Lemma range0_length (stop step : nat) :
  length (range0 stop step) = (stop + step - 1) / step.
Proof. unfold range0. now rewrite length_map, length_seq. Qed.

Lemma range0_single (stop step : nat) :
  1 <= stop -> stop <= step -> range0 stop step = [0].
Proof.
  intros Hlow Hhigh. unfold range0.
  replace ((stop + step - 1) / step) with 1; [reflexivity|].
  apply (Nat.div_unique (stop + step - 1) step 1 (stop - 1)); lia.
Qed.

Lemma char_chunks_windows (size : nat) (text : pystr) :
  1 <= size ->
  Forall (fun chunk => 1 <= length chunk <= size) (char_chunks size text).
Proof.
  intros Hsize. unfold char_chunks. apply Forall_forall.
  intros chunk Hin. apply in_map_iff in Hin. destruct Hin as [i [<- Hi]].
  apply (@range0_offsets_inside (length text) size i Hsize) in Hi.
  rewrite slice_length. lia.
Qed.

Lemma word_chunks_single (size : nat) (text : pystr) :
  split_ws text <> [] -> length (split_ws text) <= size ->
  word_chunks size text = [join [SP] (split_ws text)].
Proof.
  intros Hwords Hfew. unfold word_chunks.
  destruct (split_ws text) as [|word rest] eqn:Hsplit; [congruence|].
  rewrite range0_single by (simpl in *; lia).
  cbn [map]. rewrite slice_from_zero. cbn [Nat.add].
  now rewrite firstn_all2 by exact Hfew.
Qed.

Section ChunkList.
Variable text : pystr.

(** X4.  The character windows of [translate_text] cut the text into
    pieces that lose and add nothing: concatenated they are the text,
    each holds between 1 and 15000 characters, and there are
    [ceil(len(text) / 15000)] of them. *)
Theorem char_windows_partition_the_text :
  concat (char_chunks chunk_size text) = text
  /\ Forall (fun chunk => 1 <= length chunk <= chunk_size)
            (char_chunks chunk_size text)
  /\ length (char_chunks chunk_size text)
     = (length text + chunk_size - 1) / chunk_size.
Proof.
  split; [apply char_chunks_concat, chunk_size_positive|].
  split; [apply char_chunks_windows, chunk_size_positive|].
  unfold char_chunks. now rewrite length_map, range0_length.
Qed.

(** X5.  A text that holds between 1 and 15000 words is put on the
    chunk list twice: after the character windows comes one more chunk,
    the words of the whole text joined by single spaces. *)
Theorem text_with_words_is_chunked_twice :
  split_ws text <> [] ->
  length (split_ws text) <= chunk_size ->
  make_chunks chunk_size text
  = char_chunks chunk_size text ++ [join [SP] (split_ws text)].
Proof.
  intros Hwords Hfew. unfold make_chunks.
  now rewrite (@word_chunks_single chunk_size text Hwords Hfew).
Qed.

(** X6.  The chunk list of [translate_text], concatenated, is the text
    exactly when the text holds no word (it is empty or all whitespace);
    in that case the list is the character windows alone. *)
Theorem chunk_list_rebuilds_text_iff_no_word :
  (concat (make_chunks chunk_size text) = text <-> split_ws text = [])
  /\ (make_chunks chunk_size text = char_chunks chunk_size text
      <-> split_ws text = []).
Proof.
  split.
  - apply make_chunks_round_trip_iff, chunk_size_positive.
  - unfold make_chunks.
    rewrite <- (@word_chunks_nil_iff chunk_size text chunk_size_positive).
    split.
    + intros Heq. apply (app_inv_head (char_chunks chunk_size text)).
      now rewrite app_nil_r.
    + intros ->. apply app_nil_r.
Qed.
End ChunkList.

(** ** More on translation *)

Section TranslateMore.
Context `{Collaborators}.
Variables (self : self_t) (target_language : pystr).

Lemma requests_from_nth (total : nat) : forall chunks i k,
  nth_error (requests_from self target_language total i chunks) k
  = option_map (request_for self target_language total (i + k))
               (nth_error chunks k).
Proof.
  induction chunks as [|chunk rest IH]; intros i k.
  - now destruct k.
  - destruct k as [|k]; simpl.
    + now rewrite Nat.add_0_r.
    + rewrite IH. now rewrite Nat.add_succ_r.
Qed.

(** X7.  Whatever the service answers or raises, the only calls
    [translate_text] makes are requests to the service: [n] of them, for
    some [n] up to the number of chunks.  The request sent at position
    [k] (from 0) is the one built for the chunk at position [k] of the
    chunk list, labelled part [k + 1] of the number of chunks; so chunks
    are sent in order, each once.  No PDF is opened and nothing is
    written. *)
Theorem translate_text_only_sends_requests (text : pystr) (w : World) :
  exists sent,
    length sent <= length (make_chunks chunk_size text)
    /\ actions (events (fst (translate_text self text target_language w)))
       = actions (events w) ++ map ChatCreate sent
    /\ forall k,
         k < length sent ->
         nth_error sent k
         = option_map
             (request_for self target_language
                (length (make_chunks chunk_size text)) (S k))
             (nth_error (make_chunks chunk_size text) k).
Proof.
  destruct (translate_text_run self target_language chunk_size text w)
    as [w' [Hrun Hact]].
  cbv zeta in Hrun, Hact.
  set (reqs := requests_of self target_language (make_chunks chunk_size text))
    in *.
  set (n := snd (gather [] (map reply_of (serve (remote w) reqs)))) in *.
  assert (Hreqs : length reqs = length (make_chunks chunk_size text)).
  { unfold reqs, requests_of. apply requests_from_length. }
  exists (firstn n reqs). split; [|split].
  - rewrite length_firstn. lia.
  - unfold translate_text. rewrite Hrun. exact Hact.
  - intros k Hk. rewrite length_firstn in Hk.
    rewrite nth_error_firstn.
    destruct (Nat.ltb_spec k n) as [_ | Hge]; [|lia].
    unfold reqs, requests_of. apply requests_from_nth.
Qed.
End TranslateMore.

(** ** More on rendering *)

Section RenderMore.
Context `{Collaborators}.
Variable self : self_t.

(** Blank paragraphs leave no trace. *)
Lemma render_loop_blank : forall paragraphs st w,
  filter nonblank paragraphs = [] ->
  render_loop paragraphs st w = (w, inr st).
Proof.
  induction paragraphs as [|para rest IH]; intros st w Hblank;
    [reflexivity|].
  simpl in Hblank. simpl render_loop. unfold nonblank in Hblank at 1.
  destruct (truthy (strip para)); [discriminate|].
  simpl. now apply IH.
Qed.

(** The paragraph loop in full: what it adds to the events, and the
    counters it ends with. *)
Lemma render_loop_trace : forall paragraphs st w,
  exists loop_events,
    actions loop_events
    = map (MultiCell 0 6) (map clean_para (filter nonblank paragraphs))
    /\ render_loop paragraphs st w
       = ({| events := events w ++ loop_events; remote := remote w |},
          inr {| pdf := snd (render_run (pdf st)
                               (map clean_para (filter nonblank paragraphs)));
                 lines_added :=
                   lines_added st
                   + written (fst (render_run (pdf st)
                        (map clean_para (filter nonblank paragraphs))));
                 lines_skipped :=
                   lines_skipped st
                   + raised (fst (render_run (pdf st)
                        (map clean_para (filter nonblank paragraphs)))) |}).
Proof.
  induction paragraphs as [|para rest IH]; intros st w.
  - exists []. split; [reflexivity|]. simpl. unfold ret, written, raised.
    simpl. rewrite !Nat.add_0_r, app_nil_r. now destruct st, w.
  - cbn [render_loop filter].
    destruct (nonblank para) eqn:Hnb; unfold nonblank in Hnb; rewrite Hnb;
      cbn [negb]; [|apply IH].
    step. cbn [map render_run].
    destruct (multi_cell (pdf st) 0 6 (clean_para para))
      as [doc' [e|]] eqn:Hcell.
    + step.
      match goal with
      | |- context [render_loop rest ?st2 ?w2] =>
          destruct (IH st2 w2) as [evs [Hact Hrun]]
      end.
      cbn [pdf lines_added lines_skipped events remote] in Hrun.
      destruct (render_run doc' _) as [outs final].
      cbn [fst snd] in *. rewrite Hrun.
      eexists (MultiCell 0 6 (clean_para para) :: Print _ :: evs).
      split; [simpl; now rewrite Hact|].
      rewrite <- !app_assoc. cbn [app]. do 2 f_equal.
      unfold written, raised. simpl. unfold written, raised.
      f_equal; lia.
    + match goal with
      | |- context [render_loop rest ?st2 ?w2] =>
          destruct (IH st2 w2) as [evs [Hact Hrun]]
      end.
      cbn [pdf lines_added lines_skipped events remote] in Hrun.
      destruct (render_run (ln doc' 4) _) as [outs final].
      cbn [fst snd] in *. rewrite Hrun.
      eexists (MultiCell 0 6 (clean_para para) :: evs).
      split; [simpl; now rewrite Hact|].
      rewrite <- !app_assoc. cbn [app]. do 2 f_equal.
      unfold written, raised. simpl. unfold written, raised.
      f_equal; lia.
Qed.

(** [create_pdf] in full: the paragraph loop, then [output], then the
    report when [output] returned. *)
Lemma create_pdf_trace (text output_path : pystr) (w : World) :
  let texts := map clean_para (paragraphs_of text) in
  let r := render_run fresh_pdf texts in
  exists loop_events,
    actions loop_events = map (MultiCell 0 6) texts
    /\ create_pdf self text output_path w
       = ({| events :=
               events w
               ++ [Print ([128196%N] ++ lit " Creating PDF: " ++ output_path)]
               ++ loop_events
               ++ [Output output_path]
               ++ match output (snd r) output_path with
                  | Some _ => []
                  | None => report_lines (written (fst r)) (raised (fst r))
                  end;
             remote := remote w |},
          match output (snd r) output_path with
          | Some e => inl e
          | None => inr tt
          end).
Proof.
  intros texts r. unfold create_pdf.
  unfold bind at 1. unfold print at 1. unfold emit at 1. cbn [events remote].
  unfold bind at 1.
  match goal with
  | |- context [render_loop ?ps ?st1 ?w1] =>
      destruct (render_loop_trace ps st1 w1) as [evs [Hact Hrun]]
  end.
  cbn [pdf lines_added lines_skipped events remote Nat.add] in Hrun.
  rewrite Hrun.
  fold (paragraphs_of text) in Hact |- *. fold fresh_pdf.
  fold texts in Hact |- *. fold r.
  exists evs. split; [exact Hact|].
  cbn [events remote pdf lines_added lines_skipped].
  unfold call_output, report_lines.
  destruct (output (snd r) output_path) as [e|] eqn:Hout.
  - step. rewrite <- !app_assoc. reflexivity.
  - destruct (raised (fst r)) as [|skipped] eqn:Hskipped; step;
      rewrite <- !app_assoc; reflexivity.
Qed.

(** X8.  When [multi_cell] raises on no paragraph and [output]
    succeeds, [create_pdf] returns normally having called [multi_cell] on
    every paragraph that is not blank, in order, and then [output]; the
    last line it prints is the count of paragraphs added, which is the
    number of paragraphs that are not blank, and no line about skipped
    paragraphs follows.  The service is untouched. *)
Theorem create_pdf_writes_every_paragraph
    (text output_path : pystr) (w : World) :
  raised (fst (render_run fresh_pdf (map clean_para (paragraphs_of text)))) = 0 ->
  output (snd (render_run fresh_pdf (map clean_para (paragraphs_of text))))
         output_path = None ->
  exists loop_events,
    actions loop_events
    = map (MultiCell 0 6) (map clean_para (paragraphs_of text))
    /\ create_pdf self text output_path w
       = ({| events :=
               events w
               ++ [Print ([128196%N] ++ lit " Creating PDF: " ++ output_path)]
               ++ loop_events
               ++ [Output output_path;
                   Print ([10003%N] ++ lit " PDF created successfully!");
                   Print (lit "  " ++ [10148%N] ++ lit " Paragraphs added: "
                          ++ str_of_nat (length (paragraphs_of text)))];
             remote := remote w |},
          inr tt).
Proof.
  intros Hnone Hout.
  destruct (create_pdf_trace text output_path w) as [evs [Hact Hrun]].
  cbv zeta in Hact, Hrun. rewrite Hout, Hnone in Hrun.
  exists evs. split; [exact Hact|]. rewrite Hrun.
  pose proof (written_raised_length
                (fst (render_run fresh_pdf
                        (map clean_para (paragraphs_of text))))) as Hsum.
  rewrite Hnone, Nat.add_0_r, render_run_length, length_map in Hsum.
  rewrite Hsum. reflexivity.
Qed.

(** X9.  When the final [output] raises, [create_pdf] raises the same
    exception: the paragraphs were rendered first, the failing [output]
    call is the last thing it did, and no count is printed. *)
Theorem create_pdf_output_error
    (text output_path : pystr) (e : exn) (w : World) :
  output (snd (render_run fresh_pdf (map clean_para (paragraphs_of text))))
         output_path = Some e ->
  exists loop_events,
    actions loop_events
    = map (MultiCell 0 6) (map clean_para (paragraphs_of text))
    /\ create_pdf self text output_path w
       = ({| events :=
               events w
               ++ [Print ([128196%N] ++ lit " Creating PDF: " ++ output_path)]
               ++ loop_events
               ++ [Output output_path];
             remote := remote w |},
          inl e).
Proof.
  intros Hout.
  destruct (create_pdf_trace text output_path w) as [evs [Hact Hrun]].
  cbv zeta in Hact, Hrun. rewrite Hout in Hrun.
  exists evs. split; [exact Hact|]. rewrite Hrun. now rewrite app_nil_r.
Qed.

(** X10.  On a text with no paragraph to write (empty, or nothing but
    whitespace between the blank lines), [create_pdf] calls [multi_cell]
    not once, still writes the document, and reports 0 paragraphs
    added. *)
Theorem create_pdf_blank_text (text output_path : pystr) (w : World) :
  paragraphs_of text = [] ->
  output fresh_pdf output_path = None ->
  create_pdf self text output_path w
  = ({| events :=
          events w
          ++ [Print ([128196%N] ++ lit " Creating PDF: " ++ output_path);
              Output output_path;
              Print ([10003%N] ++ lit " PDF created successfully!");
              Print (lit "  " ++ [10148%N] ++ lit " Paragraphs added: 0")];
        remote := remote w |},
     inr tt).
Proof.
  intros Hblank Hout. unfold create_pdf.
  unfold bind at 1. unfold print at 1. unfold emit at 1. cbn [events remote].
  unfold bind at 1.
  rewrite render_loop_blank by exact Hblank.
  cbn [pdf lines_added lines_skipped]. unfold call_output.
  fold fresh_pdf. rewrite Hout. step.
  rewrite <- !app_assoc. reflexivity.
Qed.
End RenderMore.

(** ** More on paragraphs and punctuation *)

Lemma plain_ascii_other (c : char) :
  ~ In c smart_punctuation -> plain_ascii c = [c].
Proof.
  unfold smart_punctuation, plain_ascii. intros Hc.
  destruct (N.eqb_spec c 8216); [exfalso; apply Hc; subst; simpl; auto 10|].
  destruct (N.eqb_spec c 8217); [exfalso; apply Hc; subst; simpl; auto 10|].
  destruct (N.eqb_spec c 8220); [exfalso; apply Hc; subst; simpl; auto 10|].
  destruct (N.eqb_spec c 8221); [exfalso; apply Hc; subst; simpl; auto 10|].
  destruct (N.eqb_spec c 8212); [exfalso; apply Hc; subst; simpl; auto 10|].
  destruct (N.eqb_spec c 8230); [exfalso; apply Hc; subst; simpl; auto 10|].
  reflexivity.
Qed.

Lemma plain_ascii_length (c : char) : 1 <= length (plain_ascii c) <= 3.
Proof.
  unfold plain_ascii.
  repeat match goal with
         | |- context [if ?b then _ else _] => destruct b
         end; simpl; lia.
Qed.

Lemma clean_para_unchanged (para : pystr) :
  Forall (fun c => ~ In c smart_punctuation) para -> clean_para para = para.
Proof.
  intros Hplain. rewrite clean_para_table.
  induction Hplain as [|c rest Hc _ IH]; [reflexivity|].
  simpl. now rewrite (plain_ascii_other Hc), IH.
Qed.

Lemma clean_para_is_plain (para : pystr) :
  Forall (fun c => ~ In c smart_punctuation) (clean_para para).
Proof.
  apply Forall_forall. intros c Hin Hsmart.
  exact (clean_para_plain para Hsmart Hin).
Qed.

(** X11.  Cleaning a paragraph twice is cleaning it once; a paragraph
    is left as it is exactly when it holds no curly quote, em-dash or
    ellipsis; and cleaning never shortens a paragraph and at most triples
    its length (an ellipsis becomes three dots). *)
Theorem clean_para_is_a_normal_form (para : pystr) :
  clean_para (clean_para para) = clean_para para
  /\ (clean_para para = para
      <-> Forall (fun c => ~ In c smart_punctuation) para)
  /\ length para <= length (clean_para para) <= 3 * length para.
Proof.
  split; [apply clean_para_unchanged, clean_para_is_plain|]. split.
  - split; [|apply clean_para_unchanged].
    intros Hfixed. rewrite <- Hfixed. apply clean_para_is_plain.
  - rewrite clean_para_table.
    induction para as [|c rest IH]; [simpl; lia|].
    simpl flat_map. rewrite length_app.
    pose proof (plain_ascii_length c). simpl length. lia.
Qed.

Lemma split_nn_from_step (c d : char) (s cur : pystr) :
  split_nn_from cur (c :: d :: s)
  = if ((c =? NL) && (d =? NL))%N
    then rev cur :: split_nn_from [] s
    else split_nn_from (c :: cur) (d :: s).
Proof. reflexivity. Qed.

Lemma split_nn_from_not_nil_upto (n : nat) : forall s cur,
  length s <= n -> split_nn_from cur s <> [].
Proof.
  induction n as [|n IH]; intros s cur Hlen.
  - destruct s; [discriminate | simpl in Hlen; lia].
  - destruct s as [|c [|d s]]; [discriminate | discriminate |].
    rewrite split_nn_from_step.
    destruct ((c =? NL) && (d =? NL))%N; [discriminate|].
    apply IH. simpl in *. lia.
Qed.

Lemma split_nn_from_not_nil (s cur : pystr) : split_nn_from cur s <> [].
Proof. apply (@split_nn_from_not_nil_upto (length s)). lia. Qed.

Lemma join_cons (sep piece : pystr) (pieces : list pystr) :
  pieces <> [] -> join sep (piece :: pieces) = piece ++ sep ++ join sep pieces.
Proof. destruct pieces; [congruence | reflexivity]. Qed.

Lemma split_nn_from_join (n : nat) : forall s cur,
  length s <= n ->
  join [NL; NL] (split_nn_from cur s) = rev cur ++ s.
Proof.
  induction n as [|n IH]; intros s cur Hlen.
  - destruct s; [|simpl in Hlen; lia]. simpl. now rewrite app_nil_r.
  - destruct s as [|c [|d s]].
    + simpl. now rewrite app_nil_r.
    + reflexivity.
    + rewrite split_nn_from_step.
      destruct ((c =? NL) && (d =? NL))%N eqn:Hsep.
      * apply andb_true_iff in Hsep. destruct Hsep as [Hc Hd].
        apply N.eqb_eq in Hc, Hd. subst c d.
        rewrite join_cons by apply split_nn_from_not_nil.
        rewrite IH by (simpl in Hlen; lia). reflexivity.
      * rewrite IH by (simpl in *; lia). simpl. now rewrite <- app_assoc.
Qed.

(** X12.  Splitting a text into paragraphs as [create_pdf] does loses no
    character: there is always at least one paragraph, and the paragraphs
    joined by blank lines, the way [translate_text] joins translated
    chunks, are the text again. *)
Theorem paragraphs_rejoin_to_the_text (text : pystr) :
  join [NL; NL] (split_nn text) = text /\ split_nn text <> [].
Proof.
  split.
  - apply (@split_nn_from_join (length text) text []). lia.
  - apply split_nn_from_not_nil.
Qed.

(** ** More on the pipeline *)

Section PipelineMore.
Context `{Collaborators}.
Variable self : self_t.

(** X13.  The pipeline when every step succeeds.  If the reader opens
    the PDF, the extracted text is not empty, every request for its
    chunks gets a usable completion and the final [output] succeeds, then
    [translate_pdf] returns the completions joined by blank lines; and,
    printing aside, what it did is, in this order: open the PDF, send the
    requests for the chunk list, call [multi_cell] on each cleaned
    non-blank paragraph of the joined translation, and write the
    document. *)
Theorem translate_pdf_success
    (input_path output_path target_language : pystr) (pages : list pystr)
    (w : World) (translated_chunks : list pystr) :
  PdfReader input_path = inr pages ->
  truthy (strip (pages_text pages)) = true ->
  map reply_of
      (serve (remote w)
         (requests_of self target_language
            (make_chunks chunk_size (strip (pages_text pages)))))
  = map inr translated_chunks ->
  output (snd (render_run fresh_pdf
                 (map clean_para
                    (paragraphs_of (join [NL; NL] translated_chunks)))))
         output_path = None ->
  exists w',
    translate_pdf self input_path output_path target_language w
    = (w', inr (join [NL; NL] translated_chunks))
    /\ actions (events w')
       = actions (events w)
         ++ [OpenPdf input_path]
         ++ map ChatCreate
              (requests_of self target_language
                 (make_chunks chunk_size (strip (pages_text pages))))
         ++ map (MultiCell 0 6)
              (map clean_para
                 (paragraphs_of (join [NL; NL] translated_chunks)))
         ++ [Output output_path].
Proof.
  intros Hread Htext Hreplies Hout.
  unfold translate_pdf.
  unfold bind at 1 2 3 4. unfold print at 1 2 3. unfold emit at 1 2 3.
  cbn [events remote].
  rewrite (@extract_text_run _ self input_path pages _ Hread). rewrite Htext.
  cbn [events remote negb]. unfold bind at 1. unfold print at 1.
  unfold emit at 1. cbn [events remote]. unfold bind at 1.
  match goal with
  | |- context [translate_text self ?t target_language ?w1] =>
      destruct (translate_text_run self target_language chunk_size t w1)
        as [w1' [Hrun Hact]]
  end.
  cbv zeta in Hrun, Hact. cbn [events remote] in Hrun, Hact.
  rewrite Hreplies, gather_all in Hrun, Hact.
  cbn [fst snd] in Hrun, Hact.
  change ([] ++ translated_chunks) with translated_chunks in Hrun.
  unfold translate_text. rewrite Hrun.
  unfold bind at 1. unfold print at 1. unfold emit at 1. cbn [events remote].
  unfold bind at 1.
  match goal with
  | |- context [create_pdf self ?t output_path ?w2] =>
      destruct (create_pdf_run self t output_path w2)
        as [w2' [Hpdf [Hact2 _]]]
  end.
  cbv zeta in Hpdf, Hact2. cbn [events remote] in Hact2.
  rewrite Hout in Hpdf. rewrite Hpdf.
  eexists. split; [unfold bind, print, emit, ret; reflexivity|].
  cbn [events remote].
  rewrite !actions_print, Hact2, actions_print, Hact.
  rewrite !actions_app, actions_reading_lines.
  cbn [actions filter is_print negb app]. rewrite !app_nil_r.
  rewrite firstn_all2.
  - now rewrite <- !app_assoc.
  - apply (f_equal (@length _)) in Hreplies.
    rewrite !length_map, serve_length in Hreplies. lia.
Qed.
End PipelineMore.

(** ** More on the constructor and on the handler of [app.py] *)

Section InitMore.
Context `{Collaborators}.

Lemma init_from_environment (api_key_arg : option pystr) (k : pystr)
    (w : World) :
  truthy_opt api_key_arg = false ->
  getenv (lit "OPENAI_API_KEY") = Some k ->
  truthy k = true ->
  init api_key_arg w
  = ({| events := events w ++ [Print (lit "Translator Successfully Initialized.")];
        remote := remote w |},
     inr {| api_key := k; model := lit "gpt-4o-mini" |}).
Proof.
  intros Harg Henv Hk. unfold init, py_or. rewrite Harg, Henv, Hk.
  reflexivity.
Qed.

(** X15.  [__init__] builds a translator exactly when the argument or
    the environment holds a non-empty key.  The translator then carries
    the argument if it is non-empty and the environment's key otherwise,
    always with the model [gpt-4o-mini], and all [__init__] did is print
    one line. *)
Theorem init_chooses_the_key (api_key_arg : option pystr) (w : World) :
  ((exists translator w', init api_key_arg w = (w', inr translator))
   <-> truthy_opt api_key_arg
       || truthy_opt (getenv (lit "OPENAI_API_KEY")) = true)
  /\ forall translator w',
       init api_key_arg w = (w', inr translator) ->
       Some (api_key translator)
       = (if truthy_opt api_key_arg then api_key_arg
          else getenv (lit "OPENAI_API_KEY"))
       /\ truthy (api_key translator) = true
       /\ model translator = lit "gpt-4o-mini"
       /\ w' = {| events :=
                    events w
                    ++ [Print (lit "Translator Successfully Initialized.")];
                  remote := remote w |}.
Proof.
  unfold init, py_or.
  destruct api_key_arg as [[|c k]|];
    destruct (getenv (lit "OPENAI_API_KEY")) as [[|c' k']|];
    cbn [truthy_opt truthy orb]; unfold bind, print, emit, ret, raise;
    cbn [events remote]; (split; [split|]);
    try (intros [t [w' Hrun]]; discriminate Hrun);
    try discriminate;
    try (intros _; eauto);
    try reflexivity;
    try (intros t w' Hrun; try discriminate Hrun;
         injection Hrun as <- <-; cbn [api_key model truthy];
         repeat split; reflexivity).
Qed.
End InitMore.

Section AppHandler.
Context `{Collaborators}.

(** X16.  The handler of [app.py] (its calls to the translator, the
    Streamlit widgets left out) on a PDF without text, with a key in the
    environment and a disk that can be written: nothing raises, the
    translation is the empty string, no request is sent, and a document
    is written all the same.  Unlike [translate_pdf], the handler does
    not stop on an empty extraction. *)
Theorem app_handler_writes_empty_document
    (input_path output_path target_lang : pystr) (pages : list pystr)
    (w : World) :
  truthy_opt (getenv (lit "OPENAI_API_KEY")) = true ->
  PdfReader input_path = inr pages ->
  strip (pages_text pages) = [] ->
  output fresh_pdf output_path = None ->
  exists w',
    App.on_translate input_path output_path target_lang w = (w', inr [])
    /\ actions (events w')
       = actions (events w) ++ [OpenPdf input_path; Output output_path].
Proof.
  intros Hkey Hread Hempty Hout.
  destruct (getenv (lit "OPENAI_API_KEY")) as [k|] eqn:Henv;
    [|discriminate]. cbn [truthy_opt] in Hkey.
  assert (Hchunks : make_chunks chunk_size [] = [])
    by (vm_compute; reflexivity).
  unfold App.on_translate. unfold bind at 1.
  rewrite (@init_from_environment _ None k w eq_refl Henv Hkey).
  unfold bind at 1.
  rewrite (@extract_text_run _ _ input_path pages _ Hread). rewrite Hempty.
  cbn [events remote]. unfold bind at 1.
  match goal with
  | |- context [translate_text ?self [] target_lang ?w1] =>
      destruct (translate_text_run self target_lang chunk_size [] w1)
        as [w1' [Hrun Hact]]
  end.
  cbv zeta in Hrun, Hact. rewrite Hchunks in Hrun, Hact.
  cbn [requests_of requests_from length serve map gather fst snd join firstn]
    in Hrun, Hact.
  unfold translate_text. rewrite Hrun. unfold bind at 1.
  match goal with
  | |- context [create_pdf ?self [] output_path ?w2] =>
      destruct (create_pdf_run self [] output_path w2)
        as [w2' [Hpdf [Hact2 _]]]
  end.
  cbv zeta in Hpdf, Hact2.
  change (paragraphs_of []) with (@nil pystr) in Hpdf, Hact2.
  cbn [map render_run fst snd] in Hpdf, Hact2.
  rewrite Hout in Hpdf. rewrite Hpdf.
  eexists. split; [reflexivity|].
  rewrite Hact2, Hact. cbn [events remote map].
  rewrite !actions_app, actions_reading_lines.
  cbn [actions filter is_print negb app]. rewrite !app_nil_r.
  now rewrite <- !app_assoc.
Qed.
End AppHandler.

(** ** Runs that exercise the further properties *)

Section MoreRuns.
#[local] Existing Instance Demo.with_key.

Lemma extract_text_joins_pages_witness :
  PdfReader (lit "test.pdf") = inr [lit "Hello world."; lit "Second page."]
  /\ extract_text Demo.me (lit "test.pdf") (Demo.start Demo.with_key [])
     = ({| events :=
             events (Demo.start Demo.with_key [])
             ++ [Print (lit "Extracting text from PDF: " ++ lit "test.pdf");
                 OpenPdf (lit "test.pdf")]
             ++ reading_lines
                  (length [lit "Hello world."; lit "Second page."]) 1
                  [lit "Hello world."; lit "Second page."];
           remote := remote (Demo.start Demo.with_key []) |},
        inr (strip (join [NL; NL] [lit "Hello world."; lit "Second page."])))
  /\ length (reading_lines
               (length [lit "Hello world."; lit "Second page."]) 1
               [lit "Hello world."; lit "Second page."])
     = length [lit "Hello world."; lit "Second page."].
Proof.
  split; [reflexivity|].
  apply (@extract_text_joins_pages Demo.with_key Demo.me (lit "test.pdf")
           [lit "Hello world."; lit "Second page."]
           (Demo.start Demo.with_key [])).
  reflexivity.
Defined.

Lemma extract_text_result_is_stripped_witness :
  extract_text Demo.me (lit "test.pdf") (Demo.start Demo.with_key [])
  = (fst (extract_text Demo.me (lit "test.pdf") (Demo.start Demo.with_key [])),
     inr (lit "Hello world." ++ [NL; NL] ++ lit "Second page."))
  /\ strip (lit "Hello world." ++ [NL; NL] ++ lit "Second page.")
     = lit "Hello world." ++ [NL; NL] ++ lit "Second page.".
Proof.
  split; [vm_compute; reflexivity|].
  apply (@extract_text_result_is_stripped Demo.with_key Demo.me
           (lit "test.pdf") (Demo.start Demo.with_key [])
           (fst (extract_text Demo.me (lit "test.pdf")
                   (Demo.start Demo.with_key [])))).
  vm_compute. reflexivity.
Defined.

Lemma reader_error_propagates_witness :
  PdfReader (lit "missing.pdf")
  = inl (LibraryError (lit "FileNotFoundError")
                      (lit "No such file or directory"))
  /\ extract_text Demo.me (lit "missing.pdf") (Demo.start Demo.with_key [])
     = ({| events :=
             events (Demo.start Demo.with_key [])
             ++ [Print (lit "Extracting text from PDF: " ++ lit "missing.pdf");
                 OpenPdf (lit "missing.pdf")];
           remote := remote (Demo.start Demo.with_key []) |},
        inl (LibraryError (lit "FileNotFoundError")
                          (lit "No such file or directory")))
  /\ translate_pdf Demo.me (lit "missing.pdf") (lit "out.pdf") Demo.spanish
       (Demo.start Demo.with_key [])
     = ({| events :=
             events (Demo.start Demo.with_key [])
             ++ [Print (repeat 61%N 60);
                 Print (lit "PDF TRANSLATION STARTING");
                 Print (repeat 61%N 60);
                 Print (lit "Extracting text from PDF: " ++ lit "missing.pdf");
                 OpenPdf (lit "missing.pdf")];
           remote := remote (Demo.start Demo.with_key []) |},
        inl (LibraryError (lit "FileNotFoundError")
                          (lit "No such file or directory"))).
Proof.
  split; [reflexivity|].
  apply (@reader_error_propagates Demo.with_key Demo.me (lit "missing.pdf")
           (lit "out.pdf") Demo.spanish
           (LibraryError (lit "FileNotFoundError")
                         (lit "No such file or directory"))
           (Demo.start Demo.with_key [])).
  reflexivity.
Defined.

Lemma text_with_words_is_chunked_twice_witness :
  split_ws (lit "a  b") <> []
  /\ length (split_ws (lit "a  b")) <= chunk_size
  /\ make_chunks chunk_size (lit "a  b")
     = char_chunks chunk_size (lit "a  b")
       ++ [join [SP] (split_ws (lit "a  b"))].
Proof.
  split; [vm_compute; discriminate|].
  split; [apply Nat.leb_le; vm_compute; reflexivity|].
  apply (@text_with_words_is_chunked_twice (lit "a  b")).
  - vm_compute. discriminate.
  - apply Nat.leb_le. vm_compute. reflexivity.
Defined.

Lemma create_pdf_writes_every_paragraph_witness :
  raised (fst (render_run fresh_pdf
                 (map clean_para
                    (paragraphs_of (lit "ok" ++ [NL; NL] ++ lit "fine"))))) = 0
  /\ output (snd (render_run fresh_pdf
                    (map clean_para
                       (paragraphs_of (lit "ok" ++ [NL; NL] ++ lit "fine")))))
            (lit "out.pdf") = None
  /\ exists loop_events,
       actions loop_events
       = map (MultiCell 0 6)
           (map clean_para (paragraphs_of (lit "ok" ++ [NL; NL] ++ lit "fine")))
       /\ create_pdf Demo.me (lit "ok" ++ [NL; NL] ++ lit "fine") (lit "out.pdf")
            (Demo.start Demo.with_key [])
          = ({| events :=
                  events (Demo.start Demo.with_key [])
                  ++ [Print ([128196%N] ++ lit " Creating PDF: "
                             ++ lit "out.pdf")]
                  ++ loop_events
                  ++ [Output (lit "out.pdf");
                      Print ([10003%N] ++ lit " PDF created successfully!");
                      Print (lit "  " ++ [10148%N] ++ lit " Paragraphs added: "
                             ++ str_of_nat
                                  (length (paragraphs_of
                                     (lit "ok" ++ [NL; NL] ++ lit "fine"))))];
                remote := remote (Demo.start Demo.with_key []) |},
             inr tt).
Proof.
  split; [reflexivity|]. split; [reflexivity|].
  apply (@create_pdf_writes_every_paragraph Demo.with_key Demo.me
           (lit "ok" ++ [NL; NL] ++ lit "fine") (lit "out.pdf")
           (Demo.start Demo.with_key [])); reflexivity.
Defined.

Lemma create_pdf_blank_text_witness :
  paragraphs_of (lit " " ++ [NL; NL] ++ lit "  ") = []
  /\ output fresh_pdf (lit "out.pdf") = None
  /\ create_pdf Demo.me (lit " " ++ [NL; NL] ++ lit "  ") (lit "out.pdf")
       (Demo.start Demo.with_key [])
     = ({| events :=
             events (Demo.start Demo.with_key [])
             ++ [Print ([128196%N] ++ lit " Creating PDF: " ++ lit "out.pdf");
                 Output (lit "out.pdf");
                 Print ([10003%N] ++ lit " PDF created successfully!");
                 Print (lit "  " ++ [10148%N] ++ lit " Paragraphs added: 0")];
           remote := remote (Demo.start Demo.with_key []) |},
        inr tt).
Proof.
  split; [reflexivity|]. split; [reflexivity|].
  apply (@create_pdf_blank_text Demo.with_key Demo.me
           (lit " " ++ [NL; NL] ++ lit "  ") (lit "out.pdf")
           (Demo.start Demo.with_key [])); reflexivity.
Defined.

Lemma translate_pdf_success_witness :
  PdfReader (lit "test.pdf") = inr [lit "Hello world."; lit "Second page."]
  /\ truthy (strip (pages_text [lit "Hello world."; lit "Second page."])) = true
  /\ map reply_of
         (serve (remote (Demo.start Demo.with_key Demo.both_answered))
            (requests_of Demo.me Demo.spanish
               (make_chunks chunk_size
                  (strip (pages_text [lit "Hello world."; lit "Second page."])))))
     = map inr [Demo.uno; Demo.dos]
  /\ output (snd (render_run fresh_pdf
                    (map clean_para
                       (paragraphs_of (join [NL; NL] [Demo.uno; Demo.dos])))))
            (lit "out.pdf") = None
  /\ exists w',
       translate_pdf Demo.me (lit "test.pdf") (lit "out.pdf") Demo.spanish
         (Demo.start Demo.with_key Demo.both_answered)
       = (w', inr (join [NL; NL] [Demo.uno; Demo.dos]))
       /\ actions (events w')
          = actions (events (Demo.start Demo.with_key Demo.both_answered))
            ++ [OpenPdf (lit "test.pdf")]
            ++ map ChatCreate
                 (requests_of Demo.me Demo.spanish
                    (make_chunks chunk_size
                       (strip (pages_text
                                 [lit "Hello world."; lit "Second page."]))))
            ++ map (MultiCell 0 6)
                 (map clean_para
                    (paragraphs_of (join [NL; NL] [Demo.uno; Demo.dos])))
            ++ [Output (lit "out.pdf")].
Proof.
  split; [reflexivity|]. split; [reflexivity|].
  split; [vm_compute; reflexivity|]. split; [reflexivity|].
  apply (@translate_pdf_success Demo.with_key Demo.me (lit "test.pdf")
           (lit "out.pdf") Demo.spanish
           [lit "Hello world."; lit "Second page."]
           (Demo.start Demo.with_key Demo.both_answered)
           [Demo.uno; Demo.dos]);
    [reflexivity | reflexivity | vm_compute; reflexivity | reflexivity].
Defined.

Lemma translate_pdf_stops_at_translation_error_witness :
  PdfReader (lit "test.pdf") = inr [lit "Hello world."; lit "Second page."]
  /\ truthy (strip (pages_text [lit "Hello world."; lit "Second page."])) = true
  /\ map reply_of
         (serve (remote (Demo.start Demo.with_key Demo.second_fails))
            (requests_of Demo.me Demo.spanish
               (make_chunks chunk_size
                  (strip (pages_text [lit "Hello world."; lit "Second page."])))))
     = map inr [Demo.uno] ++ inl Demo.connection_error :: []
  /\ exists w',
       translate_pdf Demo.me (lit "test.pdf") (lit "out.pdf") Demo.spanish
         (Demo.start Demo.with_key Demo.second_fails)
       = (w', inl Demo.connection_error)
       /\ actions (events w')
          = actions (events (Demo.start Demo.with_key Demo.second_fails))
            ++ OpenPdf (lit "test.pdf")
               :: map ChatCreate
                    (firstn (S (length [Demo.uno]))
                       (requests_of Demo.me Demo.spanish
                          (make_chunks chunk_size
                             (strip (pages_text
                                       [lit "Hello world."; lit "Second page."]))))).
Proof.
  split; [reflexivity|]. split; [reflexivity|].
  split; [vm_compute; reflexivity|].
  apply (@translate_pdf_stops_at_translation_error Demo.with_key Demo.me
           (lit "test.pdf") (lit "out.pdf") Demo.spanish
           [lit "Hello world."; lit "Second page."]
           (Demo.start Demo.with_key Demo.second_fails)
           [Demo.uno] Demo.connection_error []);
    [reflexivity | reflexivity | vm_compute; reflexivity].
Defined.

Lemma app_handler_writes_empty_document_witness :
  truthy_opt (getenv (lit "OPENAI_API_KEY")) = true
  /\ PdfReader (lit "scan.pdf") = inr [[]; lit "  "]
  /\ strip (pages_text [[]; lit "  "]) = []
  /\ output fresh_pdf (lit "out.pdf") = None
  /\ exists w',
       App.on_translate (lit "scan.pdf") (lit "out.pdf") Demo.spanish
         (Demo.start Demo.with_key [])
       = (w', inr [])
       /\ actions (events w')
          = actions (events (Demo.start Demo.with_key []))
            ++ [OpenPdf (lit "scan.pdf"); Output (lit "out.pdf")].
Proof.
  split; [reflexivity|]. split; [reflexivity|]. split; [reflexivity|].
  split; [reflexivity|].
  apply (@app_handler_writes_empty_document Demo.with_key (lit "scan.pdf")
           (lit "out.pdf") Demo.spanish [[]; lit "  "]
           (Demo.start Demo.with_key [])); reflexivity.
Defined.
End MoreRuns.

Lemma create_pdf_output_error_witness :
  @output Demo.read_only_disk
    (snd (@render_run Demo.read_only_disk (@fresh_pdf Demo.read_only_disk)
            (map clean_para (paragraphs_of (lit "ok")))))
    (lit "out.pdf")
  = Some Demo.permission_error
  /\ exists loop_events,
       actions loop_events
       = map (MultiCell 0 6) (map clean_para (paragraphs_of (lit "ok")))
       /\ @create_pdf Demo.read_only_disk Demo.me (lit "ok") (lit "out.pdf")
            (Demo.start Demo.read_only_disk [])
          = ({| events :=
                  events (Demo.start Demo.read_only_disk [])
                  ++ [Print ([128196%N] ++ lit " Creating PDF: "
                             ++ lit "out.pdf")]
                  ++ loop_events
                  ++ [Output (lit "out.pdf")];
                remote := remote (Demo.start Demo.read_only_disk []) |},
             inl Demo.permission_error).
Proof.
  split; [reflexivity|].
  apply (@create_pdf_output_error Demo.read_only_disk Demo.me (lit "ok")
           (lit "out.pdf") Demo.permission_error
           (Demo.start Demo.read_only_disk [])).
  reflexivity.
Defined.

(** ** No empty chunk, and the pipeline when writing fails *)

Lemma word_chunks_not_empty (size : nat) (text : pystr) :
  1 <= size -> Forall (fun chunk => chunk <> []) (word_chunks size text).
Proof.
  intros Hsize. unfold word_chunks. apply Forall_forall.
  intros chunk Hin. apply in_map_iff in Hin. destruct Hin as [i [<- Hi]].
  apply (@range0_offsets_inside (length (split_ws text)) size i Hsize) in Hi.
  unfold slice. replace (i + size - i) with size by lia.
  destruct (skipn i (split_ws text)) as [|word rest] eqn:Hskip.
  - apply (f_equal (@length _)) in Hskip. rewrite length_skipn in Hskip.
    simpl in Hskip. lia.
  - destruct size as [|n]; [lia|]. cbn [firstn].
    apply join_not_nil.
    pose proof (split_ws_from_words text []) as Hwords.
    fold (split_ws text) in Hwords.
    rewrite Forall_forall in Hwords. apply Hwords.
    rewrite <- (firstn_skipn i (split_ws text)). apply in_or_app. right.
    rewrite Hskip. now left.
Qed.

(** X17.  No chunk of the chunk list of [translate_text] is empty: a
    request never carries an empty text. *)
Theorem no_chunk_is_empty (text : pystr) :
  Forall (fun chunk => chunk <> []) (make_chunks chunk_size text).
Proof.
  unfold make_chunks. apply Forall_app. split.
  - eapply Forall_impl; [|apply (char_chunks_windows text chunk_size_positive)].
    intros chunk [Hlow _] ->. simpl in Hlow. lia.
  - apply word_chunks_not_empty, chunk_size_positive.
Qed.

Section PipelineOutput.
Context `{Collaborators}.
Variable self : self_t.

(** X18.  When extraction and every translation request succeed but
    the final [output] raises, [translate_pdf] raises that exception and
    returns no text, although every request was sent and every paragraph
    rendered before. *)
Theorem translate_pdf_output_error
    (input_path output_path target_language : pystr) (pages : list pystr)
    (w : World) (translated_chunks : list pystr) (e : exn) :
  PdfReader input_path = inr pages ->
  truthy (strip (pages_text pages)) = true ->
  map reply_of
      (serve (remote w)
         (requests_of self target_language
            (make_chunks chunk_size (strip (pages_text pages)))))
  = map inr translated_chunks ->
  output (snd (render_run fresh_pdf
                 (map clean_para
                    (paragraphs_of (join [NL; NL] translated_chunks)))))
         output_path = Some e ->
  exists w',
    translate_pdf self input_path output_path target_language w = (w', inl e)
    /\ actions (events w')
       = actions (events w)
         ++ [OpenPdf input_path]
         ++ map ChatCreate
              (requests_of self target_language
                 (make_chunks chunk_size (strip (pages_text pages))))
         ++ map (MultiCell 0 6)
              (map clean_para
                 (paragraphs_of (join [NL; NL] translated_chunks)))
         ++ [Output output_path].
Proof.
  intros Hread Htext Hreplies Hout.
  unfold translate_pdf.
  unfold bind at 1 2 3 4. unfold print at 1 2 3. unfold emit at 1 2 3.
  cbn [events remote].
  rewrite (@extract_text_run _ self input_path pages _ Hread). rewrite Htext.
  cbn [events remote negb]. unfold bind at 1. unfold print at 1.
  unfold emit at 1. cbn [events remote]. unfold bind at 1.
  match goal with
  | |- context [translate_text self ?t target_language ?w1] =>
      destruct (translate_text_run self target_language chunk_size t w1)
        as [w1' [Hrun Hact]]
  end.
  cbv zeta in Hrun, Hact. cbn [events remote] in Hrun, Hact.
  rewrite Hreplies, gather_all in Hrun, Hact.
  cbn [fst snd] in Hrun, Hact.
  change ([] ++ translated_chunks) with translated_chunks in Hrun.
  unfold translate_text. rewrite Hrun.
  unfold bind at 1. unfold print at 1. unfold emit at 1. cbn [events remote].
  unfold bind at 1.
  match goal with
  | |- context [create_pdf self ?t output_path ?w2] =>
      destruct (create_pdf_run self t output_path w2)
        as [w2' [Hpdf [Hact2 _]]]
  end.
  cbv zeta in Hpdf, Hact2. cbn [events remote] in Hact2.
  rewrite Hout in Hpdf. rewrite Hpdf.
  eexists. split; [reflexivity|].
  rewrite Hact2, actions_print, Hact.
  rewrite !actions_app, actions_reading_lines.
  cbn [actions filter is_print negb app]. rewrite !app_nil_r.
  rewrite firstn_all2.
  - now rewrite <- !app_assoc.
  - apply (f_equal (@length _)) in Hreplies.
    rewrite !length_map, serve_length in Hreplies. lia.
Qed.
End PipelineOutput.

Lemma translate_pdf_output_error_witness :
  @PdfReader Demo.read_only_disk (lit "test.pdf")
  = inr [lit "Hello world."; lit "Second page."]
  /\ truthy (strip (pages_text [lit "Hello world."; lit "Second page."])) = true
  /\ map reply_of
         (@serve Demo.read_only_disk
            (remote (Demo.start Demo.read_only_disk Demo.both_answered))
            (requests_of Demo.me Demo.spanish
               (make_chunks chunk_size
                  (strip (pages_text [lit "Hello world."; lit "Second page."])))))
     = map inr [Demo.uno; Demo.dos]
  /\ @output Demo.read_only_disk
       (snd (@render_run Demo.read_only_disk (@fresh_pdf Demo.read_only_disk)
               (map clean_para
                  (paragraphs_of (join [NL; NL] [Demo.uno; Demo.dos])))))
       (lit "out.pdf")
     = Some Demo.permission_error
  /\ exists w',
       @translate_pdf Demo.read_only_disk Demo.me (lit "test.pdf")
         (lit "out.pdf") Demo.spanish
         (Demo.start Demo.read_only_disk Demo.both_answered)
       = (w', inl Demo.permission_error)
       /\ actions (events w')
          = actions (events (Demo.start Demo.read_only_disk Demo.both_answered))
            ++ [OpenPdf (lit "test.pdf")]
            ++ map ChatCreate
                 (requests_of Demo.me Demo.spanish
                    (make_chunks chunk_size
                       (strip (pages_text
                                 [lit "Hello world."; lit "Second page."]))))
            ++ map (MultiCell 0 6)
                 (map clean_para
                    (paragraphs_of (join [NL; NL] [Demo.uno; Demo.dos])))
            ++ [Output (lit "out.pdf")].
Proof.
  split; [reflexivity|]. split; [reflexivity|].
  split; [vm_compute; reflexivity|]. split; [reflexivity|].
  apply (@translate_pdf_output_error Demo.read_only_disk Demo.me
           (lit "test.pdf") (lit "out.pdf") Demo.spanish
           [lit "Hello world."; lit "Second page."]
           (Demo.start Demo.read_only_disk Demo.both_answered)
           [Demo.uno; Demo.dos] Demo.permission_error);
    [reflexivity | reflexivity | vm_compute; reflexivity | reflexivity].
Defined.
